(** * build.py: the wrapper that configures and launches the GDB build

    A shallow embedding of [build.py].  Python strings are [string],
    [os.environ] and the dictionaries copied from it are [gmap string string]
    objects in a small store, and the effects of [main] (printing, [os.chdir],
    [sys.exit], raised exceptions, the child process) are threaded through a
    state-and-exception monad. *)

From Stdlib Require Import Ascii String DecimalString DecimalNat ZArith Lia.
From stdpp Require Import base option list strings gmap.

Local Open Scope Z_scope.

(** ** Python string operations used by the script *)

Module Str.

(** [s.startswith(p)] *)
Definition startswith (s p : string) : bool := String.prefix p s.

(** [needle in hay] on strings: [needle] occurs at some offset of [hay]. *)
Fixpoint contains (needle hay : string) : bool :=
  String.prefix needle hay ||
  match hay with
  | EmptyString => false
  | String _ hay' => contains needle hay'
  end.

(** [sep.join(parts)] *)
Fixpoint join (sep : string) (parts : list string) : string :=
  match parts with
  | [] => ""
  | [p] => p
  | p :: ps => p +:+ sep +:+ join sep ps
  end.

(** ['{}'.format(n)] for a non-negative integer: its decimal numeral. *)
Definition of_nat (n : nat) : string := NilZero.string_of_uint (Nat.to_uint n).

(** [c in s] for a single character. *)
Fixpoint has_char (c : ascii) (s : string) : bool :=
  match s with
  | EmptyString => false
  | String d s' => if Ascii.eqb c d then true else has_char c s'
  end.

(** [s.split(c, 1)]: the text before and after the first [c]
    ([None] when [c] does not occur). *)
Fixpoint split_first (c : ascii) (s : string) : option (string * string) :=
  match s with
  | EmptyString => None
  | String d s' =>
      if Ascii.eqb c d then Some (EmptyString, s')
      else match split_first c s' with
           | Some (a, b) => Some (String d a, b)
           | None => None
           end
  end.

(** [s.split(c)] *)
Fixpoint split (c : ascii) (s : string) : list string :=
  match s with
  | EmptyString => [EmptyString]
  | String d s' =>
      if Ascii.eqb c d then EmptyString :: split c s'
      else match split c s' with
           | [] => [String d EmptyString]
           | w :: ws => String d w :: ws
           end
  end.

Definition endswith_char (s : string) (c : ascii) : bool :=
  match String.get (String.length s - 1) s with
  | Some d => negb (Nat.eqb (String.length s) 0) && Ascii.eqb c d
  | None => false
  end.

End Str.

(** ** [posixpath] *)

Module Posixpath.

Definition sep : ascii := "/"%char.

Definition isabs (p : string) : bool := Str.startswith p "/".

(** [os.path.join(a, b)] for two components. *)
Definition join (a b : string) : string :=
  if isabs b then b
  else if String.eqb a "" || Str.endswith_char a sep then a +:+ b
  else a +:+ "/" +:+ b.

(** The loop of [os.path.normpath] over the components of a path. *)
Fixpoint norm_comps (initial_slashes : nat) (comps new_comps : list string)
  : list string :=
  match comps with
  | [] => new_comps
  | comp :: rest =>
      if String.eqb comp "" || String.eqb comp "." then
        norm_comps initial_slashes rest new_comps
      else if negb (String.eqb comp "..")
              || (Nat.eqb initial_slashes 0 && Nat.eqb (length new_comps) 0)
              || match last new_comps with
                 | Some l => String.eqb l ".."
                 | None => false
                 end
      then norm_comps initial_slashes rest (new_comps ++ [comp])
      else norm_comps initial_slashes rest (removelast new_comps)
  end.

(** [os.path.normpath(path)] *)
Definition normpath (path : string) : string :=
  if String.eqb path "" then "."
  else
    let initial_slashes :=
      if Str.startswith path "/" then
        if Str.startswith path "//" && negb (Str.startswith path "///")
        then 2%nat else 1%nat
      else 0%nat in
    let comps := norm_comps initial_slashes (Str.split sep path) [] in
    let path' :=
      String.concat "" (replicate initial_slashes "/") +:+ Str.join "/" comps in
    if String.eqb path' "" then "." else path'.

(** [os.path.abspath(path)] seen from the working directory [cwd]. *)
Definition abspath (cwd path : string) : string :=
  normpath (if isabs path then path else join cwd path).

End Posixpath.

(** ** Toolchain metadata *)

Definition ALL_TOOLCHAINS : list string :=
  [ "arm-linux-androideabi"; "aarch64-linux-android";
    "mipsel-linux-android"; "mips64el-linux-android";
    "x86"; "x86_64" ].

(** The dictionary literal of [toolchain_to_arch], in source order. *)
Definition toolchain_arch_table : gmap string string :=
  list_to_map
    [ ("arm-linux-androideabi", "arm");
      ("aarch64-linux-android", "arm64");
      ("mipsel-linux-android", "mips");
      ("mips64el-linux-android", "mips64");
      ("x86", "x86");
      ("x86_64", "x86_64") ].

Definition default_api_level (arch : string) : nat :=
  if Str.contains "64" arch then 21%nat else 9%nat.

(** ** [argparse]

    The part of the standard [argparse] module that [ArgParser] relies on: a
    parser that has only optional arguments, each either the built-in help
    action (no argument) or a store action taking exactly one string, with
    unique-prefix abbreviations of long options, [--opt=value] and
    [--opt value] forms, [choices] validation and the [--] separator. *)

Module Argparse.

(** The attribute a store action writes ([--package-dir] writes
    [package_dir]). *)
Inductive Dest := Host | PackageDir | Toolchain.

Inductive ActionKind :=
  | HelpAction
  | StoreAction (dest : Dest).

Record Action := {
  option_strings : list string;
  kind : ActionKind;
  choices : option (list string);
  default : option string;
  help : string
}.

Record Parser := {
  description : string;
  actions : list Action
}.

Record Namespace := {
  host : option string;
  package_dir : option string;
  toolchain : option string
}.

Inductive ParseError :=
  | AmbiguousOption (arg : string) (candidates : list string)
  | ExpectedOneArgument (opt : string)
  | IgnoredExplicitArgument (opt : string) (explicit : string)
  | InvalidChoice (opt : string) (value : string) (allowed : list string)
  | UnrecognizedArguments (extras : list string).

Inductive Outcome :=
  | Parsed (ns : Namespace)
  | HelpRequested
  | Failed (e : ParseError).

(** [ArgumentParser(description=...)]: a new parser owns [-h]/[--help]. *)
Definition ArgumentParser (descr : string) : Parser :=
  {| description := descr;
     actions := [ {| option_strings := ["-h"; "--help"];
                     kind := HelpAction;
                     choices := None;
                     default := None;
                     help := "show this help message and exit" |} ] |}.

Definition add_argument (self : Parser) (a : Action) : Parser :=
  {| description := description self; actions := actions self ++ [a] |}.

(** [_option_string_actions]: every option string with its action. *)
Definition option_string_actions (p : Parser) : list (string * Action) :=
  flat_map (fun a => map (fun s => (s, a)) (option_strings a)) (actions p).

Definition lookup_option (p : Parser) (s : string) : option Action :=
  snd <$> List.find (fun sa => String.eqb (fst sa) s) (option_string_actions p).

Definition setattr (ns : Namespace) (d : Dest) (v : option string) : Namespace :=
  match d with
  | Host => {| host := v; package_dir := package_dir ns; toolchain := toolchain ns |}
  | PackageDir => {| host := host ns; package_dir := v; toolchain := toolchain ns |}
  | Toolchain => {| host := host ns; package_dir := package_dir ns; toolchain := v |}
  end.

(** The namespace before any argument is read: every store action's
    default. *)
Definition defaults (p : Parser) : Namespace :=
  fold_left
    (fun ns a => match kind a with
                 | StoreAction d => setattr ns d (default a)
                 | HelpAction => ns
                 end)
    (actions p)
    {| host := None; package_dir := None; toolchain := None |}.

Definition is_digit (c : ascii) : bool :=
  (48 <=? nat_of_ascii c)%nat && (nat_of_ascii c <=? 57)%nat.

Fixpoint all_digits (s : string) : bool :=
  match s with
  | EmptyString => true
  | String c s' => is_digit c && all_digits s'
  end.

(** [_negative_number_matcher]: [-\d+] or [-\d*\.\d+]. *)
Definition looks_negative_number (s : string) : bool :=
  match s with
  | String "-"%char body =>
      (negb (String.eqb body "") && all_digits body) ||
      match Str.split_first "."%char body with
      | Some (whole, frac) =>
          all_digits whole && negb (String.eqb frac "") && all_digits frac
      | None => false
      end
  | _ => false
  end.

(** How one command-line string is read. *)
Inductive Pattern :=
  | PDash                           (* the [--] separator *)
  | PArg                            (* an argument string *)
  | POpt (a : option Action) (opt : string) (explicit : option string).

(** [_get_option_tuples]: the option strings an abbreviation may stand for. *)
Definition get_option_tuples (p : Parser) (arg : string)
  : list (Action * string * option string) :=
  match arg with
  | String "-"%char (String "-"%char _) =>
      let '(option_prefix, explicit) :=
        match Str.split_first "="%char arg with
        | Some (o, e) => (o, Some e)
        | None => (arg, None)
        end in
      omap (fun sa : string * Action =>
              if Str.startswith (fst sa) option_prefix
              then Some (snd sa, fst sa, explicit) else None)
           (option_string_actions p)
  | String "-"%char (String c rest) =>
      let short_option_prefix := String "-"%char (String c EmptyString) in
      omap (fun sa : string * Action =>
              if String.eqb (fst sa) short_option_prefix
              then Some (snd sa, fst sa, Some rest)
              else if Str.startswith (fst sa) arg
              then Some (snd sa, fst sa, None) else None)
           (option_string_actions p)
  | _ => []
  end.

(** [_parse_optional]: an exact option string; else [opt=value] with [opt]
    an exact option string; else an abbreviation, which must stand for one
    option only; else an argument (a negative number or a string with a
    space) or an option nobody knows. *)
Definition parse_optional (p : Parser) (arg : string) : ParseError + Pattern :=
  match arg with
  | EmptyString => inr PArg
  | String c _ =>
      if negb (Ascii.eqb c "-"%char) then inr PArg
      else match lookup_option p arg with
      | Some a => inr (POpt (Some a) arg None)
      | None =>
          if Nat.eqb (String.length arg) 1 then inr PArg
          else
            let exact :=
              match Str.split_first "="%char arg with
              | Some (o, e) =>
                  match lookup_option p o with
                  | Some a => Some (POpt (Some a) o (Some e))
                  | None => None
                  end
              | None => None
              end in
            match exact with
            | Some r => inr r
            | None =>
                match get_option_tuples p arg with
                | _ :: _ :: _ as ts =>
                    inl (AmbiguousOption arg (map (fun t => snd (fst t)) ts))
                | [(a, o, e)] => inr (POpt (Some a) o e)
                | [] =>
                    if looks_negative_number arg then inr PArg
                    else if Str.has_char " "%char arg then inr PArg
                    else inr (POpt None arg None)
                end
            end
      end
  end.

(** First pass of [_parse_known_args]: classify every string; everything
    after [--] is an argument. *)
Fixpoint classify (p : Parser) (args : list string)
  : ParseError + list (string * Pattern) :=
  match args with
  | [] => inr []
  | arg :: rest =>
      if String.eqb arg "--"
      then inr ((arg, PDash) :: map (fun a => (a, PArg)) rest)
      else match parse_optional p arg with
           | inl e => inl e
           | inr c =>
               match classify p rest with
               | inl e => inl e
               | inr cs => inr ((arg, c) :: cs)
               end
           end
  end.

(** [_check_value] and the store itself. *)
Definition store (a : Action) (d : Dest) (opt value : string) (ns : Namespace)
  : ParseError + Namespace :=
  match choices a with
  | Some allowed =>
      if existsb (String.eqb value) allowed
      then inr (setattr ns d (Some value))
      else inl (InvalidChoice opt value allowed)
  | None => inr (setattr ns d (Some value))
  end.

(** A single-dash option without argument may be followed, in the same
    string, by further single-dash options ([-xyz]).  The result is the last
    action of the string, with the text left over for it. *)
Fixpoint short_chain (p : Parser) (a : Action) (opt explicit : string)
  : ParseError + (Action * string * option string) :=
  match explicit with
  | EmptyString => inl (IgnoredExplicitArgument opt explicit)
  | String c tail =>
      let opt' := String "-"%char (String c EmptyString) in
      match lookup_option p opt' with
      | None => inl (IgnoredExplicitArgument opt explicit)
      | Some a' =>
          match kind a', tail with
          | HelpAction, String _ _ => short_chain p a' opt' tail
          | _, EmptyString => inr (a', opt', None)
          | StoreAction _, _ => inr (a', opt', Some tail)
          end
      end
  end.

Definition is_long (opt : string) : bool := Str.startswith opt "--".

(** Second pass: consume options in order.  The help action ends the run as
    soon as it is reached; strings that belong to no option are collected
    and reported at the end. *)
Fixpoint consume (p : Parser) (cs : list (string * Pattern))
    (ns : Namespace) (extras : list string) : Outcome :=
  match cs with
  | [] =>
      match extras with
      | [] => Parsed ns
      | _ => Failed (UnrecognizedArguments extras)
      end
  | (arg, PDash) :: rest | (arg, PArg) :: rest
  | (arg, POpt None _ _) :: rest => consume p rest ns (extras ++ [arg])
  | (arg, POpt (Some a) opt explicit) :: rest =>
      match kind a, explicit with
      | HelpAction, None => HelpRequested
      | HelpAction, Some e =>
          if is_long opt then Failed (IgnoredExplicitArgument opt e)
          else match short_chain p a opt e with
               | inl err => Failed err
               | inr (a', opt', e') =>
                   match kind a', e', rest with
                   | StoreAction _, None, (_, PArg) :: _
                   | StoreAction _, Some _, _
                   | HelpAction, _, _ => HelpRequested
                   | StoreAction _, None, _ => Failed (ExpectedOneArgument opt')
                   end
               end
      | StoreAction d, Some v =>
          match store a d opt v ns with
          | inl err => Failed err
          | inr ns' => consume p rest ns' extras
          end
      | StoreAction d, None =>
          match rest with
          | (v, PArg) :: rest' =>
              match store a d opt v ns with
              | inl err => Failed err
              | inr ns' => consume p rest' ns' extras
              end
          | _ => Failed (ExpectedOneArgument opt)
          end
      end
  end.

(** [parse_args(argv)] *)
Definition parse_args (p : Parser) (argv : list string) : Outcome :=
  match classify p argv with
  | inl e => Failed e
  | inr cs => consume p cs (defaults p) []
  end.

End Argparse.

(** ** The process: what it reads, what it does *)

Inductive Exception :=
  | KeyError (key : string)
  | RuntimeError (msg : string)
  | OSError (path : string)
  | CalledProcessError (returncode : Z) (cmd : list string).

(** What stops a run: [sys.exit(arg)] or an exception nobody catches. *)
Inductive Raised :=
  | SystemExit (code : Z + string)
  | Uncaught (e : Exception).

Inductive ChildResult :=
  | ChildExited (returncode : Z)
  | ChildNotStarted.

Inductive Event :=
  | Stdout (line : string)
  | HelpMessage (p : Argparse.Parser)
  | UsageError (p : Argparse.Parser) (e : Argparse.ParseError)
  | Chdir (dir : string)
  | Spawn (cmd : list string) (env : gmap string string) (cwd : string).

(** What the script reads from its surroundings and never changes. *)
Record World := {
  environ0 : gmap string string;        (* [os.environ] at start-up *)
  cwd0 : string;                        (* working directory at start-up *)
  sys_argv : list string;               (* [sys.argv[1:]] *)
  sys_platform : string;
  script_file : string;                 (* where the script itself is stored *)
  cpu_count : nat;                      (* [multiprocessing.cpu_count()] *)
  realpath : string -> string -> string;(* [os.path.realpath] seen from a cwd *)
  isdir : string -> bool;               (* directories [os.chdir] may enter *)
  child : list string -> gmap string string -> string -> ChildResult
}.

(** The dictionaries of the run live in a store; object [0] is
    [os.environ]. *)
Definition Ref := nat.
Definition os_environ : Ref := 0%nat.

Record State := {
  cwd : string;
  store : list (gmap string string);
  trace : list Event
}.

Definition initial (w : World) : State :=
  {| cwd := cwd0 w; store := [environ0 w]; trace := [] |}.

(** Computations: read the world, change the state, return or raise. *)
Definition M (A : Type) : Type := World -> State -> State * (Raised + A).

Definition ret {A} (a : A) : M A := fun _ s => (s, inr a).

Definition bind {A B} (m : M A) (k : A -> M B) : M B :=
  fun w s =>
    match m w s with
    | (s', inr a) => k a w s'
    | (s', inl r) => (s', inl r)
    end.

#[global] Instance M_ret : MRet M := @ret.
#[global] Instance M_bind : MBind M := fun A B k m => bind m k.

Definition raise {A} (r : Raised) : M A := fun _ s => (s, inl r).
Definition ask : M World := fun w s => (s, inr w).
Definition get : M State := fun _ s => (s, inr s).
Definition emit (e : Event) : M unit :=
  fun _ s => ({| cwd := cwd s; store := store s; trace := trace s ++ [e] |}, inr tt).

Fixpoint mapM {A B} (f : A -> M B) (l : list A) : M (list B) :=
  match l with
  | [] => ret []
  | x :: xs => y ← f x ; ys ← mapM f xs ; ret (y :: ys)
  end.

(** *** Library calls *)

Definition read (r : Ref) : M (gmap string string) :=
  fun _ s => (s, inr (default ∅ (store s !! r))).

(** [os.getenv(key, dflt)] *)
Definition os_getenv (key dflt : string) : M string :=
  env ← read os_environ ; ret (default dflt (env !! key)).

(** [dict(d)]: a new dictionary with the entries of [d]. *)
Definition dict_copy (r : Ref) : M Ref :=
  fun _ s =>
    ({| cwd := cwd s;
        store := store s ++ [default ∅ (store s !! r)];
        trace := trace s |},
     inr (length (store s))).

(** [d[key] = value] *)
Definition dict_setitem (r : Ref) (key value : string) : M unit :=
  fun _ s =>
    ({| cwd := cwd s;
        store := alter (insert key value) r (store s);
        trace := trace s |},
     inr tt).

Definition sys_exit {A} (arg : Z + string) : M A := raise (SystemExit arg).

Definition os_path_realpath (path : string) : M string :=
  fun w s => (s, inr (realpath w (cwd s) path)).

(** [os.chdir(dir)] *)
Definition os_chdir (dir : string) : M unit :=
  fun w s =>
    if isdir w dir
    then ({| cwd := dir; store := store s; trace := trace s ++ [Chdir dir] |}, inr tt)
    else (s, inl (Uncaught (OSError dir))).

Definition print (line : string) : M unit := emit (Stdout line).

(** [subprocess.check_call(cmd, env=env)] *)
Definition subprocess_check_call (cmd : list string) (env : Ref) : M unit :=
  e ← read env ;
  s ← get ;
  emit (Spawn cmd e (cwd s)) ;;
  w ← ask ;
  match child w cmd e (cwd s) with
  | ChildExited 0 => ret tt
  | ChildExited rc => raise (Uncaught (CalledProcessError rc cmd))
  | ChildNotStarted => raise (Uncaught (OSError (default "" (head cmd))))
  end.

(** [ArgumentParser.parse_args()] on the process's command line: help is
    printed and the run exits with 0, a usage error is reported and the run
    exits with 2. *)
Definition parse_args (p : Argparse.Parser) : M Argparse.Namespace :=
  w ← ask ;
  match Argparse.parse_args p (sys_argv w) with
  | Argparse.Parsed ns => ret ns
  | Argparse.HelpRequested => emit (HelpMessage p) ;; sys_exit (inl 0)
  | Argparse.Failed e => emit (UsageError p e) ;; sys_exit (inl 2)
  end.

(** ['{}'.format(v)] for a value that is a string or [None]. *)
Definition format_value (v : option string) : string := default "None" v.

(** ** The script *)

Definition newline : string := String (ascii_of_nat 10) EmptyString.

Definition module_doc : string := "Builds GDB for Android.".

Definition android_path (path : string) : M string :=
  top ← os_getenv "ANDROID_BUILD_TOP" "" ;
  if String.eqb top "" then
    sys_exit (inr ("ANDROID_BUILD_TOP not set. Cannot continue." +:+ newline +:+
                   "Please set ANDROID_BUILD_TOP to point to the root of an " +:+
                   "Android tree."))
  else os_path_realpath (Posixpath.join top path).

Definition get_default_package_dir : M string := android_path "out/ndk".

Definition get_default_host : M string :=
  w ← ask ;
  if existsb (String.eqb (sys_platform w)) ["linux"; "linux2"] then ret "linux"
  else if String.eqb (sys_platform w) "darwin" then ret "darwin"
  else raise (Uncaught (RuntimeError ("Unsupported host: " +:+ sys_platform w))).

(** [ArgParser()] *)
Definition ArgParser : M Argparse.Parser :=
  let self := Argparse.ArgumentParser module_doc in
  let self := Argparse.add_argument self
    {| Argparse.option_strings := ["--host"];
       Argparse.kind := Argparse.StoreAction Argparse.Host;
       Argparse.choices := Some ["darwin"; "linux"; "windows"; "windows64"];
       Argparse.default := None;
       Argparse.help := "Build binaries for given OS (e.g. linux)." |} in
  package_dir ← get_default_package_dir ;
  let self := Argparse.add_argument self
    {| Argparse.option_strings := ["--package-dir"];
       Argparse.kind := Argparse.StoreAction Argparse.PackageDir;
       Argparse.choices := None;
       Argparse.default := Some package_dir;
       Argparse.help := "Directory to place the packaged GCC." |} in
  let self := Argparse.add_argument self
    {| Argparse.option_strings := ["--toolchain"];
       Argparse.kind := Argparse.StoreAction Argparse.Toolchain;
       Argparse.choices := Some ALL_TOOLCHAINS;
       Argparse.default := None;
       Argparse.help := "Toolchain to build. Builds all if not present." |} in
  ret self.

Definition toolchain_to_arch (toolchain : string) : M string :=
  match toolchain_arch_table !! toolchain with
  | Some arch => ret arch
  | None => raise (Uncaught (KeyError toolchain))
  end.

Definition sysroot_path (toolchain : string) : M string :=
  arch ← toolchain_to_arch toolchain ;
  let version := default_api_level arch in
  let prebuilt_ndk := "prebuilts/ndk/current" in
  let sysroot_subpath :=
    "platforms/android-" +:+ Str.of_nat version +:+ "/arch-" +:+ arch in
  android_path (Posixpath.join prebuilt_ndk sysroot_subpath).

Definition main : M unit :=
  parser ← ArgParser ;
  args ← parse_args parser ;
  dir ← android_path "toolchain/gdb" ;
  os_chdir dir ;;
  toolchain_path ← android_path "toolchain" ;
  ndk_path ← android_path "ndk" ;
  w ← ask ;
  let jobs_arg := "-j" +:+ Str.of_nat (cpu_count w) in
  let package_dir_arg := "--package-dir=" +:+ format_value (Argparse.package_dir args) in
  let toolchains :=
    match Argparse.toolchain args with
    | Some tc => [tc]
    | None => ALL_TOOLCHAINS
    end in
  host ← match Argparse.host args with
          | Some h => ret h
          | None => get_default_host
          end ;
  ndk_build_tools_path ← android_path "ndk/build/tools" ;
  build_env ← dict_copy os_environ ;
  dict_setitem build_env "NDK_BUILDTOOLS_PATH" ndk_build_tools_path ;;
  dict_setitem build_env "ANDROID_NDK_ROOT" ndk_path ;;
  print ("Building " +:+ host +:+ " gdb: " +:+ Str.join " " toolchains) ;;
  archs ← mapM toolchain_to_arch toolchains ;
  let build_cmd :=
    [ "bash"; "build-gdb.sh"; "--toolchain-src-dir=" +:+ toolchain_path;
      "--ndk-dir=" +:+ ndk_path; "--verbose";
      "--arch=" +:+ Str.join "," archs;
      package_dir_arg; jobs_arg ] in
  print (Str.join " " build_cmd) ;;
  subprocess_check_call build_cmd build_env.

(** Running the script as a program: [main()] from the initial state, and the
    status the interpreter exits with. *)
Definition run (w : World) : State * (Raised + unit) := main w (initial w).

Definition exit_status (r : Raised + unit) : Z :=
  match r with
  | inr _ => 0
  | inl (SystemExit (inl code)) => code
  | inl (SystemExit (inr _)) => 1
  | inl (Uncaught _) => 1
  end.

(** What the interpreter writes to the error stream on the way out. *)
Definition exit_message (r : Raised + unit) : option string :=
  match r with
  | inl (SystemExit (inr msg)) => Some msg
  | _ => None
  end.

(** * Vocabulary of the properties *)

(** The tag has a 64-bit marker when the text [64] occurs somewhere in it. *)
Definition has_64_marker (arch : string) : Prop :=
  exists pre post, arch = pre +:+ "64" +:+ post.

(** The environment of the running process, and the root it names. *)
Definition environ_of (s : State) : gmap string string :=
  default ∅ (store s !! os_environ).

Definition top_of (s : State) : string :=
  default "" (environ_of s !! "ANDROID_BUILD_TOP").

Definition root (w : World) : string :=
  default "" (environ0 w !! "ANDROID_BUILD_TOP").

Definition not_set_message : string :=
  "ANDROID_BUILD_TOP not set. Cannot continue." +:+ newline +:+
  "Please set ANDROID_BUILD_TOP to point to the root of an Android tree.".

(** The parser [ArgParser()] builds once the default package directory is
    known. *)
Definition ArgParser_with (package_dir : string) : Argparse.Parser :=
  {| Argparse.description := module_doc;
     Argparse.actions :=
       [ {| Argparse.option_strings := ["-h"; "--help"];
            Argparse.kind := Argparse.HelpAction;
            Argparse.choices := None;
            Argparse.default := None;
            Argparse.help := "show this help message and exit" |};
         {| Argparse.option_strings := ["--host"];
            Argparse.kind := Argparse.StoreAction Argparse.Host;
            Argparse.choices := Some ["darwin"; "linux"; "windows"; "windows64"];
            Argparse.default := None;
            Argparse.help := "Build binaries for given OS (e.g. linux)." |};
         {| Argparse.option_strings := ["--package-dir"];
            Argparse.kind := Argparse.StoreAction Argparse.PackageDir;
            Argparse.choices := None;
            Argparse.default := Some package_dir;
            Argparse.help := "Directory to place the packaged GCC." |};
         {| Argparse.option_strings := ["--toolchain"];
            Argparse.kind := Argparse.StoreAction Argparse.Toolchain;
            Argparse.choices := Some ALL_TOOLCHAINS;
            Argparse.default := None;
            Argparse.help := "Toolchain to build. Builds all if not present." |} ] |}.

(** Every option found on the command line is one of the parser's own
    actions. *)
Definition known (p : Argparse.Parser) (c : string * Argparse.Pattern) : Prop :=
  match snd c with
  | Argparse.POpt (Some a) _ _ => In a (Argparse.actions p)
  | _ => True
  end.

(** A namespace the script can work with: host and toolchain, when present,
    are among the choices, and the package directory is a string. *)
Definition valid (ns : Argparse.Namespace) : Prop :=
  (forall h, Argparse.host ns = Some h ->
             In h ["darwin"; "linux"; "windows"; "windows64"]) /\
  (forall tc, Argparse.toolchain ns = Some tc -> In tc ALL_TOOLCHAINS) /\
  is_Some (Argparse.package_dir ns).

Definition default_package_dir (w : World) : string :=
  realpath w (cwd0 w) (Posixpath.join (root w) "out/ndk").

Definition gdb_dir (w : World) : string :=
  realpath w (cwd0 w) (Posixpath.join (root w) "toolchain/gdb").

(** The remaining paths are resolved after the change of directory. *)
Definition toolchain_dir (w : World) : string :=
  realpath w (gdb_dir w) (Posixpath.join (root w) "toolchain").

Definition ndk_dir (w : World) : string :=
  realpath w (gdb_dir w) (Posixpath.join (root w) "ndk").

Definition build_tools_dir (w : World) : string :=
  realpath w (gdb_dir w) (Posixpath.join (root w) "ndk/build/tools").

(** How the host is settled: given on the command line, or detected. *)
Inductive host_resolved (w : World) (args : Argparse.Namespace) : string -> Prop :=
  | host_given h :
      Argparse.host args = Some h -> host_resolved w args h
  | host_linux :
      Argparse.host args = None ->
      In (sys_platform w) ["linux"; "linux2"] ->
      host_resolved w args "linux"
  | host_darwin :
      Argparse.host args = None ->
      sys_platform w = "darwin" ->
      host_resolved w args "darwin".

(** The conditions under which [main] gets as far as starting the child:
    the root is set, the command line parses to [args], the directory
    [toolchain/gdb] under the root can be entered, and the host [h] is
    settled. *)
Record Builds (w : World) (args : Argparse.Namespace) (h : string) : Prop := {
  builds_root : root w <> "";
  builds_args :
    Argparse.parse_args (ArgParser_with (default_package_dir w)) (sys_argv w)
    = Argparse.Parsed args;
  builds_dir : isdir w (gdb_dir w) = true;
  builds_host : host_resolved w args h
}.

Definition selected (args : Argparse.Namespace) : list string :=
  match Argparse.toolchain args with
  | Some tc => [tc]
  | None => ALL_TOOLCHAINS
  end.

Definition arch_of (tc : string) : string :=
  default "" (toolchain_arch_table !! tc).

Definition build_cmd_of (w : World) (args : Argparse.Namespace) : list string :=
  [ "bash"; "build-gdb.sh";
    "--toolchain-src-dir=" +:+ toolchain_dir w;
    "--ndk-dir=" +:+ ndk_dir w;
    "--verbose";
    "--arch=" +:+ Str.join "," (map arch_of (selected args));
    "--package-dir=" +:+ format_value (Argparse.package_dir args);
    "-j" +:+ Str.of_nat (cpu_count w) ].

Definition build_env_of (w : World) : gmap string string :=
  <["ANDROID_NDK_ROOT" := ndk_dir w]>
    (<["NDK_BUILDTOOLS_PATH" := build_tools_dir w]> (environ0 w)).

(** What [check_call] makes of the child's fate. *)
Definition check_call_outcome (cmd : list string) (r : ChildResult) : Raised + unit :=
  match r with
  | ChildExited 0 => inr tt
  | ChildExited rc => inl (Uncaught (CalledProcessError rc cmd))
  | ChildNotStarted => inl (Uncaught (OSError (default "" (head cmd))))
  end.

(** The child processes started in a trace, in order. *)
Definition spawns (t : list Event) : list (list string * gmap string string * string) :=
  omap (fun e => match e with
                 | Spawn cmd env dir => Some (cmd, env, dir)
                 | _ => None
                 end) t.

(** Their argument vectors alone. *)
Definition commands (t : list Event) : list (list string) :=
  map (fun c => fst (fst c)) (spawns t).

(** The help messages printed in a trace. *)
Definition helps (t : list Event) : list Argparse.Parser :=
  omap (fun e => match e with
                 | HelpMessage p => Some p
                 | _ => None
                 end) t.

(** The same world with the script stored somewhere else. *)
Definition with_script_file (w : World) (file : string) : World :=
  {| environ0 := environ0 w;
     cwd0 := cwd0 w;
     sys_argv := sys_argv w;
     sys_platform := sys_platform w;
     script_file := file;
     cpu_count := cpu_count w;
     realpath := realpath w;
     isdir := isdir w;
     child := child w |}.

(** A computation that does the same wherever the script is stored. *)
Definition script_independent {A : Type} (m : M A) : Prop :=
  forall w file s, m (with_script_file w file) s = m w s.

(** The relative path of a sysroot below the root. *)
Definition sysroot_rel (arch : string) : string :=
  "prebuilts/ndk/current/platforms/android-" +:+
  Str.of_nat (default_api_level arch) +:+ "/arch-" +:+ arch.

(** The argument vector as it would be if the script name came first. *)
Definition script_name_first (w : World) (cmd : list string) : Prop :=
  exists toolchain_src ndk archs package,
    cmd = [ "build-gdb.sh";
            "--toolchain-src-dir=" +:+ toolchain_src;
            "--ndk-dir=" +:+ ndk;
            "--verbose";
            "--arch=" +:+ archs;
            "--package-dir=" +:+ package;
            "-j" +:+ Str.of_nat (cpu_count w) ].

(** ** Sample worlds

    A machine with eight processing units and a file system without symbolic
    links, where every directory asked for exists and the build script
    succeeds. *)

Module Sample.

Definition environ : gmap string string :=
  {[ "ANDROID_BUILD_TOP" := "/src";
     "PATH" := "/usr/bin";
     "ANDROID_NDK_ROOT" := "/opt/old-ndk" ]}.

Definition world (env : gmap string string) (platform : string)
    (argv : list string) : World :=
  {| environ0 := env;
     cwd0 := "/home/dev";
     sys_argv := argv;
     sys_platform := platform;
     script_file := "/src/toolchain/gdb/build.py";
     cpu_count := 8;
     realpath := Posixpath.abspath;
     isdir := fun _ => true;
     child := fun _ _ _ => ChildExited 0 |}.

(** The same machine on which [toolchain/gdb] is missing. *)
Definition world_without_gdb_dir (platform : string) (argv : list string) : World :=
  {| environ0 := environ;
     cwd0 := "/home/dev";
     sys_argv := argv;
     sys_platform := platform;
     script_file := "/src/toolchain/gdb/build.py";
     cpu_count := 8;
     realpath := Posixpath.abspath;
     isdir := fun dir => negb (String.eqb dir "/src/toolchain/gdb");
     child := fun _ _ _ => ChildExited 0 |}.

End Sample.

(** ** Further vocabulary: other worlds, and the ways a run can end *)

(** The same world on another platform. *)
Definition with_platform (w : World) (platform : string) : World :=
  {| environ0 := environ0 w;
     cwd0 := cwd0 w;
     sys_argv := sys_argv w;
     sys_platform := platform;
     script_file := script_file w;
     cpu_count := cpu_count w;
     realpath := realpath w;
     isdir := isdir w;
     child := child w |}.

(** The same world started with another environment. *)
Definition with_environ (w : World) (env : gmap string string) : World :=
  {| environ0 := env;
     cwd0 := cwd0 w;
     sys_argv := sys_argv w;
     sys_platform := sys_platform w;
     script_file := script_file w;
     cpu_count := cpu_count w;
     realpath := realpath w;
     isdir := isdir w;
     child := child w |}.

(** The sample machine with a build script that ends as [result] says. *)
Definition sample_world_with_child (result : ChildResult) (argv : list string)
  : World :=
  {| environ0 := Sample.environ;
     cwd0 := "/home/dev";
     sys_argv := argv;
     sys_platform := "linux";
     script_file := "/src/toolchain/gdb/build.py";
     cpu_count := 8;
     realpath := Posixpath.abspath;
     isdir := fun _ => true;
     child := fun _ _ _ => result |}.

(** The state in which only help or a usage error has been written. *)
Definition after_event (w : World) (e : Event) : State :=
  {| cwd := cwd0 w; store := [environ0 w]; trace := [e] |}.

(** The state after a build: the directory entered, the copy of the
    environment made, the two lines printed and the child started. *)
Definition after_build (w : World) (args : Argparse.Namespace) (h : string) : State :=
  {| cwd := gdb_dir w;
     store := [environ0 w; build_env_of w];
     trace :=
       [ Chdir (gdb_dir w);
         Stdout ("Building " +:+ h +:+ " gdb: " +:+ Str.join " " (selected args));
         Stdout (Str.join " " (build_cmd_of w args));
         Spawn (build_cmd_of w args) (build_env_of w) (gdb_dir w) ] |}.

(** The six ways [main] can go, in the order in which the script decides
    between them. *)
Inductive Ending (w : World) : State * (Raised + unit) -> Prop :=
  | ending_no_root :
      root w = "" ->
      Ending w (initial w, inl (SystemExit (inr not_set_message)))
  | ending_help :
      root w <> "" ->
      Argparse.parse_args (ArgParser_with (default_package_dir w)) (sys_argv w)
      = Argparse.HelpRequested ->
      Ending w (after_event w (HelpMessage (ArgParser_with (default_package_dir w))),
                inl (SystemExit (inl 0)))
  | ending_usage e :
      root w <> "" ->
      Argparse.parse_args (ArgParser_with (default_package_dir w)) (sys_argv w)
      = Argparse.Failed e ->
      Ending w (after_event w (UsageError (ArgParser_with (default_package_dir w)) e),
                inl (SystemExit (inl 2)))
  | ending_no_directory args :
      root w <> "" ->
      Argparse.parse_args (ArgParser_with (default_package_dir w)) (sys_argv w)
      = Argparse.Parsed args ->
      isdir w (gdb_dir w) = false ->
      Ending w (initial w, inl (Uncaught (OSError (gdb_dir w))))
  | ending_no_host args :
      root w <> "" ->
      Argparse.parse_args (ArgParser_with (default_package_dir w)) (sys_argv w)
      = Argparse.Parsed args ->
      isdir w (gdb_dir w) = true ->
      Argparse.host args = None ->
      ~ In (sys_platform w) ["linux"; "linux2"; "darwin"] ->
      Ending w ({| cwd := gdb_dir w; store := [environ0 w];
                   trace := [Chdir (gdb_dir w)] |},
                inl (Uncaught (RuntimeError ("Unsupported host: " +:+ sys_platform w))))
  | ending_build args h :
      Builds w args h ->
      Ending w (after_build w args h,
                check_call_outcome (build_cmd_of w args)
                  (child w (build_cmd_of w args) (build_env_of w) (gdb_dir w))).

(** * Properties *)

#[local] Arguments String.append !_ _ / : simpl nomatch.

(** ** Strings *)

Section StrFacts.

Lemma prefix_spec (p s : string) :
  String.prefix p s = true <-> exists post, s = p +:+ post.
Proof.
  revert s; induction p as [|c p IH]; intros s.
  - split; [intros _; by exists s | by destruct s].
  - destruct s as [|d s]; simpl.
    + split; [done | intros [post H]; discriminate].
    + destruct (Ascii.ascii_dec c d) as [->|Hne].
      * rewrite IH. split; intros [post H]; exists post; simpl in *; congruence.
      * split; [done | intros [post H]; simpl in H; congruence].
Qed.

(** [needle in hay] holds exactly when [hay] can be cut around a copy of
    [needle]. *)
Lemma contains_spec (needle hay : string) :
  Str.contains needle hay = true <->
  exists pre post, hay = pre +:+ needle +:+ post.
Proof.
  induction hay as [|c hay IH]; cbn [Str.contains]; rewrite orb_true_iff.
  - split.
    + intros [H|H]; [|done]. apply prefix_spec in H as [post ->]. by exists "", post.
    + intros ([|d pre] & post & H); [|discriminate].
      left. apply prefix_spec. by exists post.
  - split.
    + intros [H|H].
      * apply prefix_spec in H as [post H]. by exists "", post.
      * apply IH in H as (pre & post & ->). by exists (String c pre), post.
    + intros ([|d pre] & post & H).
      * left. apply prefix_spec. by exists post.
      * right. apply IH. simpl in H. injection H as -> ->. by exists pre, post.
Qed.

End StrFacts.

(** ** Toolchain metadata *)

(** C1. For every architecture tag, [default_api_level] is 21 when the tag
    contains the text [64] and 9 when it does not; so [arch64] and [x86_64]
    give 21, [arm] and [x86] give 9. *)
Theorem default_api_level_by_marker :
  (forall arch,
      (default_api_level arch = 21%nat <-> has_64_marker arch) /\
      (default_api_level arch = 9%nat <-> ~ has_64_marker arch)) /\
  default_api_level "arch64" = 21%nat /\
  default_api_level "arm" = 9%nat /\
  default_api_level "x86" = 9%nat /\
  default_api_level "x86_64" = 21%nat.
Proof.
  split; [|by repeat split].
  intros arch. unfold default_api_level, has_64_marker.
  rewrite <- contains_spec.
  destruct (Str.contains "64" arch); split; split; done.
Qed.

(** ** Steps of a run *)

Section Steps.

Context {A B : Type}.

Lemma bind_inr (m : M A) (k : A -> M B) w s s' a :
  m w s = (s', inr a) -> (m ≫= k) w s = k a w s'.
Proof. unfold mbind, M_bind, bind. by intros ->. Qed.

Lemma bind_inl (m : M A) (k : A -> M B) w s s' r :
  m w s = (s', inl r) -> (m ≫= k) w s = (s', inl r).
Proof. unfold mbind, M_bind, bind. by intros ->. Qed.

End Steps.

Lemma root_unset_or_empty (w : World) :
  root w = "" <->
  environ0 w !! "ANDROID_BUILD_TOP" = None \/
  environ0 w !! "ANDROID_BUILD_TOP" = Some "".
Proof.
  unfold root. destruct (environ0 w !! "ANDROID_BUILD_TOP") as [v|]; simpl.
  - split; [intros ->; by right | by intros [|[= ->]]].
  - split; [by left | done].
Qed.

Lemma top_of_initial (w : World) : top_of (initial w) = root w.
Proof. reflexivity. Qed.

Lemma android_path_set (path : string) w s :
  top_of s <> "" ->
  android_path path w s =
    (s, inr (realpath w (cwd s) (Posixpath.join (top_of s) path))).
Proof.
  intros Hne. unfold android_path.
  erewrite bind_inr by reflexivity. fold (environ_of s) (top_of s).
  by apply String.eqb_neq in Hne as ->.
Qed.

Lemma android_path_unset (path : string) w s :
  top_of s = "" ->
  android_path path w s = (s, inl (SystemExit (inr not_set_message))).
Proof.
  intros He. unfold android_path.
  erewrite bind_inr by reflexivity. fold (environ_of s) (top_of s).
  by rewrite He.
Qed.

Lemma ArgParser_set w s :
  top_of s <> "" ->
  ArgParser w s =
    (s, inr (ArgParser_with
               (realpath w (cwd s) (Posixpath.join (top_of s) "out/ndk")))).
Proof.
  intros Hne. unfold ArgParser, get_default_package_dir.
  by erewrite bind_inr by (by apply android_path_set).
Qed.

Lemma ArgParser_unset w s :
  top_of s = "" ->
  ArgParser w s = (s, inl (SystemExit (inr not_set_message))).
Proof.
  intros He. unfold ArgParser, get_default_package_dir.
  by erewrite bind_inl by (by apply android_path_unset).
Qed.

Lemma main_unset w s :
  top_of s = "" ->
  main w s = (s, inl (SystemExit (inr not_set_message))).
Proof.
  intros He. unfold main. by erewrite bind_inl by (by apply ArgParser_unset).
Qed.

(** ** What the parser lets through *)

Section ParserFacts.

Import Argparse.

Variable p : Parser.

Lemma option_string_actions_in s a :
  In (s, a) (option_string_actions p) -> In a (actions p).
Proof.
  unfold option_string_actions. rewrite in_flat_map.
  intros (a' & Ha' & Hin). apply in_map_iff in Hin as (s' & [= _ <-] & _). done.
Qed.

Lemma lookup_option_in s a : lookup_option p s = Some a -> In a (actions p).
Proof.
  unfold lookup_option.
  destruct (List.find _ _) as [[s' a']|] eqn:E; [|done].
  intros [= <-]. apply find_some in E as [Hin _].
  by apply option_string_actions_in in Hin.
Qed.

Lemma get_option_tuples_in arg a o e :
  In (a, o, e) (get_option_tuples p arg) -> In a (actions p).
Proof.
  unfold get_option_tuples. intros Hin.
  destruct arg as [|c arg']; [done|].
  destruct (Ascii.ascii_dec c "-") as [->|Hc]; cycle 1.
  { revert Hin. destruct c as [[] [] [] [] [] [] [] []]; first [done | by destruct Hc]. }
  destruct arg' as [|c' rest]; [done|].
  assert (forall (f : string * Action -> option (Action * string * option string)),
             (forall sa r, f sa = Some r -> fst (fst r) = snd sa) ->
             In (a, o, e) (omap f (option_string_actions p)) -> In a (actions p))
    as Homap.
  { intros f Hf H. apply list_elem_of_In, list_elem_of_omap in H as ([s a'] & Hsa & Hfa).
    apply Hf in Hfa. simpl in Hfa. subst a'.
    by apply list_elem_of_In, option_string_actions_in in Hsa. }
  destruct (Ascii.ascii_dec c' "-") as [->|Hc'].
  - destruct (Str.split_first "=" (String "-" (String "-" rest))) as [[o' e']|];
      (eapply Homap; [|exact Hin]);
      intros [s a'] r; simpl; destruct (Str.startswith _ _); by intros [= <-].
  - assert (In (a, o, e)
              (omap (fun sa : string * Action =>
                       if String.eqb (fst sa) (String "-" (String c' ""))
                       then Some (snd sa, fst sa, Some rest)
                       else if Str.startswith (fst sa) (String "-" (String c' rest))
                            then Some (snd sa, fst sa, None) else None)
                    (option_string_actions p))) as Hin'.
    { revert Hin. destruct c' as [[] [] [] [] [] [] [] []]; first [done | by destruct Hc']. }
    eapply Homap; [|exact Hin'].
    intros [s a'] r. simpl. destruct (String.eqb _ _); [by intros [= <-]|].
    destruct (Str.startswith _ _); by intros [= <-].
Qed.

Lemma parse_optional_in arg a o e :
  parse_optional p arg = inr (POpt (Some a) o e) -> In a (actions p).
Proof.
  unfold parse_optional. destruct arg as [|c rest]; [done|].
  destruct (negb _); [done|].
  destruct (lookup_option p (String c rest)) as [a0|] eqn:E0.
  { intros [= <- _ _]. by eapply lookup_option_in. }
  destruct (Nat.eqb _ _); [done|].
  destruct (Str.split_first "=" (String c rest)) as [[o' e']|].
  - destruct (lookup_option p o') as [a1|] eqn:E1.
    { intros [= <- _ _]. by eapply lookup_option_in. }
    destruct (get_option_tuples p (String c rest)) as [|[[a2 o2] e2] [|? ?]] eqn:Et.
    + by repeat case_match.
    + intros [= <- <- <-]. eapply get_option_tuples_in. rewrite Et. by left.
    + done.
  - destruct (get_option_tuples p (String c rest)) as [|[[a2 o2] e2] [|? ?]] eqn:Et.
    + by repeat case_match.
    + intros [= <- <- <-]. eapply get_option_tuples_in. rewrite Et. by left.
    + done.
Qed.

Lemma classify_known args cs : classify p args = inr cs -> Forall (known p) cs.
Proof.
  revert cs. induction args as [|arg rest IH]; intros cs; simpl.
  - by intros [= <-].
  - destruct (String.eqb arg "--").
    + intros [= <-]. constructor; [done|].
      apply Forall_forall. intros c Hc. apply list_elem_of_In, in_map_iff in Hc as (x & <- & _). done.
    + destruct (parse_optional p arg) as [e|c] eqn:Ec; [done|].
      destruct (classify p rest) as [e|cs']; [done|].
      intros [= <-]. constructor; [|by apply IH].
      unfold known. simpl. destruct c as [| |[a|] o e]; try done.
      by eapply parse_optional_in.
Qed.

End ParserFacts.

Section ArgParserFacts.

Import Argparse.

Variable d : string.

Lemma defaults_ArgParser :
  defaults (ArgParser_with d) =
    {| host := None; package_dir := Some d; toolchain := None |}.
Proof. reflexivity. Qed.

Lemma choice_in (value : string) (allowed : list string) :
  existsb (String.eqb value) allowed = true -> In value allowed.
Proof.
  rewrite existsb_exists. intros (x & Hin & Heq).
  by apply String.eqb_eq in Heq as ->.
Qed.

Lemma store_valid a dst opt v ns ns' :
  In a (actions (ArgParser_with d)) ->
  kind a = StoreAction dst ->
  store a dst opt v ns = inr ns' ->
  valid ns -> valid ns'.
Proof.
  intros Hin Hk Hs (Hh & Ht & Hp). unfold store in Hs.
  simpl in Hin. destruct Hin as [<-|[<-|[<-|[<-|[]]]]];
    simpl in Hk; try done; injection Hk as <-; cbn [choices] in Hs.
  - destruct (existsb _ _) eqn:E; [|done]. injection Hs as <-.
    split_and!; simpl; [|done..]. intros h [= <-]. by apply choice_in in E.
  - injection Hs as <-. split_and!; simpl; [done..|]. by eexists.
  - destruct (existsb _ _) eqn:E; [|done]. injection Hs as <-.
    split_and!; simpl; [done| |done]. intros h [= <-]. by apply choice_in in E.
Qed.

Lemma consume_valid n : forall cs ns extras ns',
  (length cs <= n)%nat ->
  Forall (known (ArgParser_with d)) cs ->
  valid ns ->
  consume (ArgParser_with d) cs ns extras = Parsed ns' ->
  valid ns'.
Proof.
  induction n as [|n IH]; intros cs ns extras ns' Hlen Hk Hv.
  - destruct cs; [|simpl in Hlen; lia]. simpl. destruct extras; [|done].
    by intros [= <-].
  - destruct cs as [|[arg pat] rest]; simpl.
    { destruct extras; [|done]. by intros [= <-]. }
    simpl in Hlen. apply Forall_cons in Hk as [Ha Hrest].
    destruct pat as [| |[a|] opt explicit];
      try (apply IH; [lia|done|done]).
    unfold known in Ha; cbn [snd] in Ha.
    destruct (kind a) as [|dst] eqn:Ek.
    + destruct explicit as [e|]; [|done].
      destruct (is_long opt); [done|].
      destruct (short_chain _ _ _ _) as [err|[[a' opt'] e']]; [done|].
      by repeat case_match.
    + destruct explicit as [v|].
      * destruct (store a dst opt v ns) as [err|ns1] eqn:Es; [done|].
        apply IH; [lia|done|].
        eapply store_valid; [exact Ha|exact Ek|exact Es|exact Hv].
      * destruct rest as [|[v [| |]] rest']; try done.
        destruct (store a dst opt v ns) as [err|ns1] eqn:Es; [done|].
        apply Forall_cons in Hrest as [_ Hrest'].
        apply IH; [simpl in Hlen; lia|done|].
        eapply store_valid; [exact Ha|exact Ek|exact Es|exact Hv].
Qed.

(** Whatever [parse_args] lets through has its host and its toolchain
    among the choices, and a package directory. *)
Lemma parse_args_valid argv ns :
  parse_args (ArgParser_with d) argv = Parsed ns -> valid ns.
Proof.
  unfold parse_args.
  destruct (classify _ argv) as [e|cs] eqn:Ec; [done|].
  intros Hc. eapply consume_valid; [done| |  |exact Hc].
  - by eapply classify_known.
  - rewrite defaults_ArgParser. split_and!; simpl; [done..|by eexists].
Qed.

Lemma parse_args_no_arguments :
  parse_args (ArgParser_with d) [] =
    Parsed {| host := None; package_dir := Some d; toolchain := None |}.
Proof. reflexivity. Qed.

End ArgParserFacts.

(** ** A run that reaches the build *)

Section RunFacts.

Variable w : World.

Lemma parse_args_parsed parser ns s :
  Argparse.parse_args parser (sys_argv w) = Argparse.Parsed ns ->
  parse_args parser w s = (s, inr ns).
Proof. intros H. unfold parse_args. erewrite bind_inr by reflexivity. by rewrite H. Qed.

Lemma parse_args_help parser s :
  Argparse.parse_args parser (sys_argv w) = Argparse.HelpRequested ->
  parse_args parser w s =
    ({| cwd := cwd s; store := store s; trace := trace s ++ [HelpMessage parser] |},
     inl (SystemExit (inl 0))).
Proof. intros H. unfold parse_args. erewrite bind_inr by reflexivity. by rewrite H. Qed.

Lemma parse_args_failed parser e s :
  Argparse.parse_args parser (sys_argv w) = Argparse.Failed e ->
  parse_args parser w s =
    ({| cwd := cwd s; store := store s; trace := trace s ++ [UsageError parser e] |},
     inl (SystemExit (inl 2))).
Proof. intros H. unfold parse_args. erewrite bind_inr by reflexivity. by rewrite H. Qed.

Lemma os_chdir_ok dir s :
  isdir w dir = true ->
  os_chdir dir w s =
    ({| cwd := dir; store := store s; trace := trace s ++ [Chdir dir] |}, inr tt).
Proof. intros H. unfold os_chdir. by rewrite H. Qed.

Lemma os_chdir_fails dir s :
  isdir w dir = false ->
  os_chdir dir w s = (s, inl (Uncaught (OSError dir))).
Proof. intros H. unfold os_chdir. by rewrite H. Qed.

Lemma get_default_host_linux s :
  In (sys_platform w) ["linux"; "linux2"] ->
  get_default_host w s = (s, inr "linux").
Proof.
  intros H. unfold get_default_host. erewrite bind_inr by reflexivity.
  assert (existsb (String.eqb (sys_platform w)) ["linux"; "linux2"] = true) as ->; [|done].
  apply existsb_exists. exists (sys_platform w). split; [done|apply String.eqb_refl].
Qed.

Lemma get_default_host_darwin s :
  sys_platform w = "darwin" ->
  get_default_host w s = (s, inr "darwin").
Proof.
  intros H. unfold get_default_host. erewrite bind_inr by reflexivity. by rewrite H.
Qed.

Lemma get_default_host_other s :
  ~ In (sys_platform w) ["linux"; "linux2"; "darwin"] ->
  get_default_host w s =
    (s, inl (Uncaught (RuntimeError ("Unsupported host: " +:+ sys_platform w)))).
Proof.
  intros H. unfold get_default_host. erewrite bind_inr by reflexivity.
  destruct (existsb _ _) eqn:E.
  { apply choice_in in E. destruct H. simpl in *. tauto. }
  destruct (String.eqb_spec (sys_platform w) "darwin") as [Hd|]; [|done].
  destruct H. rewrite Hd. simpl. tauto.
Qed.

Lemma host_step args h s :
  host_resolved w args h ->
  match Argparse.host args with
  | Some h' => mret h'
  | None => get_default_host
  end w s = (s, inr h).
Proof.
  intros [h' -> | -> Hl | -> Hd]; [done| |].
  - by apply get_default_host_linux.
  - by apply get_default_host_darwin.
Qed.

Lemma toolchain_to_arch_known tc s :
  In tc ALL_TOOLCHAINS -> toolchain_to_arch tc w s = (s, inr (arch_of tc)).
Proof. simpl. intros [<-|[<-|[<-|[<-|[<-|[<-|[]]]]]]]; reflexivity. Qed.

Lemma toolchain_to_arch_unknown tc s :
  ~ In tc ALL_TOOLCHAINS ->
  toolchain_to_arch tc w s = (s, inl (Uncaught (KeyError tc))).
Proof.
  intros H. unfold toolchain_to_arch.
  destruct (toolchain_arch_table !! tc) as [a|] eqn:E; [|done].
  destruct H. apply elem_of_list_to_map_2, list_elem_of_In in E.
  simpl in *. intuition congruence.
Qed.

Lemma mapM_toolchain_to_arch tcs s :
  Forall (fun tc => In tc ALL_TOOLCHAINS) tcs ->
  mapM toolchain_to_arch tcs w s = (s, inr (map arch_of tcs)).
Proof.
  induction 1 as [|tc tcs Htc _ IH]; [done|]. cbn [mapM map].
  erewrite bind_inr by (by apply toolchain_to_arch_known).
  by erewrite bind_inr by exact IH.
Qed.

Lemma subprocess_check_call_run cmd env s e :
  store s !! env = Some e ->
  subprocess_check_call cmd env w s =
    ({| cwd := cwd s; store := store s; trace := trace s ++ [Spawn cmd e (cwd s)] |},
     check_call_outcome cmd (child w cmd e (cwd s))).
Proof.
  intros He. unfold subprocess_check_call.
  erewrite bind_inr by (unfold read; by rewrite He).
  erewrite bind_inr by reflexivity.
  erewrite bind_inr by reflexivity.
  erewrite bind_inr by reflexivity.
  cbn [cwd store trace]. unfold check_call_outcome. change (default ∅ (Some e)) with e.
  destruct (child w cmd e (cwd s)) as [[|rc|rc]|]; reflexivity.
Qed.

End RunFacts.

Section BuildRun.

Variables (w : World) (args : Argparse.Namespace) (h : string).
Hypothesis HB : Builds w args h.

Lemma selected_known : Forall (fun tc => In tc ALL_TOOLCHAINS) (selected args).
Proof.
  destruct (parse_args_valid _ _ _ (builds_args _ _ _ HB)) as (_ & Ht & _).
  unfold selected. destruct (Argparse.toolchain args) as [tc|]; [by auto|].
  apply Forall_forall. intros tc Htc. by apply list_elem_of_In in Htc.
Qed.

(** The whole of a run that reaches the build: one change of directory, two
    printed lines, one child process; [os.environ] is still what it was and
    the copy made for the child holds the two extra variables. *)
Lemma run_builds :
  run w =
    ({| cwd := gdb_dir w;
        store := [environ0 w; build_env_of w];
        trace :=
          [ Chdir (gdb_dir w);
            Stdout ("Building " +:+ h +:+ " gdb: " +:+ Str.join " " (selected args));
            Stdout (Str.join " " (build_cmd_of w args));
            Spawn (build_cmd_of w args) (build_env_of w) (gdb_dir w) ] |},
     check_call_outcome (build_cmd_of w args)
       (child w (build_cmd_of w args) (build_env_of w) (gdb_dir w))).
Proof.
  destruct HB as [Hroot Hargs Hdir Hhost].
  unfold run, main.
  erewrite bind_inr by (by apply ArgParser_set).
  erewrite bind_inr by (apply parse_args_parsed; exact Hargs).
  erewrite bind_inr by (by apply android_path_set).
  erewrite bind_inr by (apply os_chdir_ok; exact Hdir).
  erewrite bind_inr by (by apply android_path_set).
  erewrite bind_inr by (by apply android_path_set).
  erewrite bind_inr by reflexivity.
  erewrite bind_inr by (by apply host_step).
  erewrite bind_inr by (by apply android_path_set).
  erewrite bind_inr by reflexivity.
  erewrite bind_inr by reflexivity.
  erewrite bind_inr by reflexivity.
  erewrite bind_inr by reflexivity.
  erewrite bind_inr by (apply mapM_toolchain_to_arch, selected_known).
  erewrite bind_inr by reflexivity.
  by rewrite (subprocess_check_call_run w _ 1%nat _ (build_env_of w)).
Qed.

End BuildRun.

(** ** The claims about a run *)

(** C4. When [ANDROID_BUILD_TOP] is unset or empty, every invocation stops
    with the message asking for it and a non-zero exit status, before any
    change of directory, any output and any child process. *)
Theorem unset_root_stops_every_invocation (w : World) :
  environ0 w !! "ANDROID_BUILD_TOP" = None \/
  environ0 w !! "ANDROID_BUILD_TOP" = Some "" ->
  run w = (initial w, inl (SystemExit (inr not_set_message))) /\
  exit_status (snd (run w)) = 1 /\
  exit_status (snd (run w)) <> 0 /\
  exit_message (snd (run w)) = Some not_set_message /\
  Str.startswith not_set_message "ANDROID_BUILD_TOP not set." = true /\
  trace (fst (run w)) = [] /\
  spawns (trace (fst (run w))) = [] /\
  cwd (fst (run w)) = cwd0 w /\
  store (fst (run w)) = [environ0 w].
Proof.
  intros H. apply root_unset_or_empty in H.
  assert (run w = (initial w, inl (SystemExit (inr not_set_message)))) as ->.
  { unfold run. by apply main_unset. }
  by split_and!.
Qed.

Lemma unset_root_stops_every_invocation_witness :
  let w := Sample.world ∅ "linux2" ["--toolchain"; "x86"] in
  run w = (initial w, inl (SystemExit (inr not_set_message))) /\
  exit_status (snd (run w)) = 1 /\
  exit_status (snd (run w)) <> 0 /\
  exit_message (snd (run w)) = Some not_set_message /\
  Str.startswith not_set_message "ANDROID_BUILD_TOP not set." = true /\
  trace (fst (run w)) = [] /\
  spawns (trace (fst (run w))) = [] /\
  cwd (fst (run w)) = cwd0 w /\
  store (fst (run w)) = [environ0 w].
Proof.
  apply (unset_root_stops_every_invocation
           (Sample.world ∅ "linux2" ["--toolchain"; "x86"])).
  left. reflexivity.
Defined.

Section BuildClaims.

Variables (w : World) (args : Argparse.Namespace) (h : string).
Hypothesis HB : Builds w args h.

Lemma spawns_run :
  spawns (trace (fst (run w))) =
    [(build_cmd_of w args, build_env_of w, gdb_dir w)].
Proof. by rewrite (run_builds w args h HB). Qed.

Lemma args_valid : valid args.
Proof. exact (parse_args_valid _ _ _ (builds_args _ _ _ HB)). Qed.

End BuildClaims.

Lemma arch_tags_all :
  map arch_of ALL_TOOLCHAINS = ["arm"; "arm64"; "mips"; "mips64"; "x86"; "x86_64"].
Proof. reflexivity. Qed.

Lemma arch_tags_NoDup : NoDup (map arch_of ALL_TOOLCHAINS).
Proof.
  rewrite arch_tags_all.
  repeat (apply NoDup_cons_2;
          [rewrite ?list_elem_of_In; simpl; intuition discriminate|]).
  apply NoDup_nil_2.
Qed.

Lemma parse_toolchain_next (d tc : string) (ns : Argparse.Namespace) :
  Argparse.parse_args (ArgParser_with d) ["--toolchain"; tc] = Argparse.Parsed ns ->
  Argparse.toolchain ns = Some tc.
Proof.
  unfold Argparse.parse_args. cbn [Argparse.classify].
  change (Argparse.parse_optional (ArgParser_with d) "--toolchain")
    with (@inr Argparse.ParseError _
            (Argparse.POpt
               (Some {| Argparse.option_strings := ["--toolchain"];
                        Argparse.kind := Argparse.StoreAction Argparse.Toolchain;
                        Argparse.choices := Some ALL_TOOLCHAINS;
                        Argparse.default := None;
                        Argparse.help :=
                          "Toolchain to build. Builds all if not present." |})
               "--toolchain" None)).
  cbn [String.eqb Ascii.eqb Bool.eqb].
  destruct (String.eqb tc "--"); [done|].
  destruct (Argparse.parse_optional (ArgParser_with d) tc) as [e|[| |a o e]];
    try done.
  cbn. destruct (_ || _); [|done]. by intros [= <-].
Qed.

Lemma parse_toolchain_equals (d tc : string) (ns : Argparse.Namespace) :
  Argparse.parse_args (ArgParser_with d) ["--toolchain=" +:+ tc] = Argparse.Parsed ns ->
  Argparse.toolchain ns = Some tc.
Proof. cbn. destruct (_ || _); [|done]. by intros [= <-]. Qed.

(** C2. In a run that reaches the build, the sixth word of the command is
    [--arch=] followed by the architecture tags joined with commas: all six
    tags in table order, without repetition, when no toolchain was chosen;
    the one tag of the chosen toolchain otherwise, so [--arch=arm] for
    [arm-linux-androideabi]. *)
Theorem arch_argument (w : World) (args : Argparse.Namespace) (h : string) :
  Builds w args h ->
  exists cmd env dir tags,
    spawns (trace (fst (run w))) = [(cmd, env, dir)] /\
    cmd !! 5%nat = Some ("--arch=" +:+ Str.join "," tags) /\
    NoDup tags /\
    (Argparse.toolchain args = None ->
       tags = ["arm"; "arm64"; "mips"; "mips64"; "x86"; "x86_64"] /\
       cmd !! 5%nat = Some "--arch=arm,arm64,mips,mips64,x86,x86_64") /\
    (forall tc, Argparse.toolchain args = Some tc ->
       exists arch, toolchain_arch_table !! tc = Some arch /\
                    tags = [arch] /\
                    cmd !! 5%nat = Some ("--arch=" +:+ arch)) /\
    (Argparse.toolchain args = Some "arm-linux-androideabi" ->
       cmd !! 5%nat = Some "--arch=arm") /\
    (sys_argv w = [] -> Argparse.toolchain args = None) /\
    (forall tc, sys_argv w = ["--toolchain"; tc] \/
                sys_argv w = ["--toolchain=" +:+ tc] ->
       Argparse.toolchain args = Some tc).
Proof.
  intros HB.
  exists (build_cmd_of w args), (build_env_of w), (gdb_dir w),
         (map arch_of (selected args)).
  split; [by eapply spawns_run|]. split; [done|].
  destruct (args_valid _ _ _ HB) as (_ & Ht & _).
  pose proof (builds_args _ _ _ HB) as Hargs.
  unfold build_cmd_of, selected.
  destruct (Argparse.toolchain args) as [tc|] eqn:Etc.
  - specialize (Ht tc eq_refl). split_and!.
    + apply NoDup_singleton.
    + done.
    + intros tc' [= <-]. exists (arch_of tc). split_and!; [|done..].
      simpl in Ht. by destruct Ht as [<-|[<-|[<-|[<-|[<-|[<-|[]]]]]]].
    + by intros [= ->].
    + intros Hargv. rewrite Hargv, parse_args_no_arguments in Hargs.
      injection Hargs as <-. done.
    + intros tc' [Hargv|Hargv]; rewrite Hargv in Hargs.
      * apply parse_toolchain_next in Hargs. congruence.
      * apply parse_toolchain_equals in Hargs. congruence.
  - split_and!; try done.
    + apply arch_tags_NoDup.
    + intros tc' [Hargv|Hargv]; rewrite Hargv in Hargs.
      * apply parse_toolchain_next in Hargs. congruence.
      * apply parse_toolchain_equals in Hargs. congruence.
Qed.

Lemma arch_argument_witness :
  let w := Sample.world Sample.environ "linux2" ["--toolchain=arm-linux-androideabi"] in
  let args := {| Argparse.host := None;
                 Argparse.package_dir := Some "/src/out/ndk";
                 Argparse.toolchain := Some "arm-linux-androideabi" |} in
  exists cmd env dir tags,
    spawns (trace (fst (run w))) = [(cmd, env, dir)] /\
    cmd !! 5%nat = Some ("--arch=" +:+ Str.join "," tags) /\
    NoDup tags /\
    (Argparse.toolchain args = None ->
       tags = ["arm"; "arm64"; "mips"; "mips64"; "x86"; "x86_64"] /\
       cmd !! 5%nat = Some "--arch=arm,arm64,mips,mips64,x86,x86_64") /\
    (forall tc, Argparse.toolchain args = Some tc ->
       exists arch, toolchain_arch_table !! tc = Some arch /\
                    tags = [arch] /\
                    cmd !! 5%nat = Some ("--arch=" +:+ arch)) /\
    (Argparse.toolchain args = Some "arm-linux-androideabi" ->
       cmd !! 5%nat = Some "--arch=arm") /\
    (sys_argv w = [] -> Argparse.toolchain args = None) /\
    (forall tc, sys_argv w = ["--toolchain"; tc] \/
                sys_argv w = ["--toolchain=" +:+ tc] ->
       Argparse.toolchain args = Some tc).
Proof.
  apply (arch_argument
           (Sample.world Sample.environ "linux2" ["--toolchain=arm-linux-androideabi"])
           {| Argparse.host := None;
              Argparse.package_dir := Some "/src/out/ndk";
              Argparse.toolchain := Some "arm-linux-androideabi" |}
           "linux").
  split.
  - vm_compute. discriminate.
  - vm_compute. reflexivity.
  - reflexivity.
  - apply host_linux; [reflexivity | right; left; reflexivity].
Defined.

(** ** The sysroot helper *)

Lemma sysroot_path_known (w : World) (s : State) (t arch : string) :
  top_of s <> "" ->
  toolchain_arch_table !! t = Some arch ->
  sysroot_path t w s =
    (s, inr (realpath w (cwd s) (Posixpath.join (top_of s) (sysroot_rel arch)))).
Proof.
  intros Htop Ht. unfold sysroot_path, toolchain_to_arch. rewrite Ht.
  erewrite bind_inr by reflexivity.
  by rewrite android_path_set.
Qed.

(** C3. With the root set to [r], [sysroot_path t] is the canonical path of
    [r] joined with [prebuilts/ndk/current/platforms/android-<level>/arch-<arch>],
    [arch] being the tag of [t] and [level] the API level of that tag.  With
    root [/src] and [x86_64] this is the canonical path of
    [/src/prebuilts/ndk/current/platforms/android-21/arch-x86_64], which is
    that very path when no symbolic link stands in it. *)
Theorem sysroot_path_under_root (w : World) (s : State) (r t arch : string) :
  top_of s = r ->
  r <> "" ->
  toolchain_arch_table !! t = Some arch ->
  sysroot_path t w s =
    (s, inr (realpath w (cwd s)
               (Posixpath.join r
                  ("prebuilts/ndk/current/platforms/android-" +:+
                   Str.of_nat (default_api_level arch) +:+ "/arch-" +:+ arch)))) /\
  (r = "/src" -> t = "x86_64" ->
   sysroot_path t w s =
     (s, inr (realpath w (cwd s)
                "/src/prebuilts/ndk/current/platforms/android-21/arch-x86_64")) /\
   (realpath w (cwd s) "/src/prebuilts/ndk/current/platforms/android-21/arch-x86_64"
    = "/src/prebuilts/ndk/current/platforms/android-21/arch-x86_64" ->
    sysroot_path t w s =
      (s, inr "/src/prebuilts/ndk/current/platforms/android-21/arch-x86_64"))).
Proof.
  intros <- Hr Ht.
  pose proof (sysroot_path_known w s t arch Hr Ht) as H.
  split; [exact H|].
  intros Hsrc ->. injection Ht as <-. rewrite Hsrc in H.
  split; [exact H|]. by intros <-.
Qed.

Lemma sysroot_path_under_root_witness :
  let w := Sample.world Sample.environ "linux2" [] in
  sysroot_path "x86_64" w (initial w) =
    (initial w,
     inr (realpath w (cwd (initial w))
            (Posixpath.join "/src"
               ("prebuilts/ndk/current/platforms/android-" +:+
                Str.of_nat (default_api_level "x86_64") +:+ "/arch-" +:+ "x86_64")))) /\
  ("/src" = "/src" -> "x86_64" = "x86_64" ->
   sysroot_path "x86_64" w (initial w) =
     (initial w,
      inr (realpath w (cwd (initial w))
             "/src/prebuilts/ndk/current/platforms/android-21/arch-x86_64")) /\
   (realpath w (cwd (initial w))
      "/src/prebuilts/ndk/current/platforms/android-21/arch-x86_64"
    = "/src/prebuilts/ndk/current/platforms/android-21/arch-x86_64" ->
    sysroot_path "x86_64" w (initial w) =
      (initial w,
       inr "/src/prebuilts/ndk/current/platforms/android-21/arch-x86_64"))).
Proof.
  apply (sysroot_path_under_root
           (Sample.world Sample.environ "linux2" [])
           (initial (Sample.world Sample.environ "linux2" []))
           "/src" "x86_64" "x86_64").
  - vm_compute. reflexivity.
  - discriminate.
  - vm_compute. reflexivity.
Defined.

(** On the sample machine the sysroot of [x86_64] is the path itself. *)
Example sysroot_path_sample :
  let w := Sample.world Sample.environ "linux2" [] in
  sysroot_path "x86_64" w (initial w) =
    (initial w, inr "/src/prebuilts/ndk/current/platforms/android-21/arch-x86_64").
Proof. vm_compute. reflexivity. Qed.

(** ** The command *)

Lemma of_nat_decodes (n : nat) :
  Nat.of_uint <$> NilZero.uint_of_string (Str.of_nat n) = Some n.
Proof.
  unfold Str.of_nat. pose proof (DecimalNat.Unsigned.of_to n) as Hn.
  destruct (Nat.to_uint n) as [|d|d|d|d|d|d|d|d|d|d] eqn:E.
  { rewrite NilZero.usu_nil. by rewrite <- Hn. }
  all: rewrite NilZero.usu by discriminate; simpl; by f_equal.
Qed.

(** C5, as the code has it.  The argument vector starts with the shell,
    [bash], and the script name comes second; the remaining words are, in
    order, [--toolchain-src-dir=], [--ndk-dir=], [--verbose], [--arch=],
    [--package-dir=] and [-jN], [N] being the decimal numeral of the number of
    processing units. *)
Theorem argument_vector (w : World) (args : Argparse.Namespace) (h : string) :
  Builds w args h ->
  exists cmd env dir archs package digits,
    spawns (trace (fst (run w))) = [(cmd, env, dir)] /\
    cmd = [ "bash"; "build-gdb.sh";
            "--toolchain-src-dir=" +:+ toolchain_dir w;
            "--ndk-dir=" +:+ ndk_dir w;
            "--verbose";
            "--arch=" +:+ archs;
            "--package-dir=" +:+ package;
            "-j" +:+ digits ] /\
    Nat.of_uint <$> NilZero.uint_of_string digits = Some (cpu_count w).
Proof.
  intros HB.
  exists (build_cmd_of w args), (build_env_of w), (gdb_dir w).
  exists (Str.join "," (map arch_of (selected args))),
         (format_value (Argparse.package_dir args)),
         (Str.of_nat (cpu_count w)).
  split_and!; [by eapply spawns_run | done | apply of_nat_decodes].
Qed.

Lemma argument_vector_witness :
  let w := Sample.world Sample.environ "darwin" [] in
  exists cmd env dir archs package digits,
    spawns (trace (fst (run w))) = [(cmd, env, dir)] /\
    cmd = [ "bash"; "build-gdb.sh";
            "--toolchain-src-dir=" +:+ toolchain_dir w;
            "--ndk-dir=" +:+ ndk_dir w;
            "--verbose";
            "--arch=" +:+ archs;
            "--package-dir=" +:+ package;
            "-j" +:+ digits ] /\
    Nat.of_uint <$> NilZero.uint_of_string digits = Some (cpu_count w).
Proof.
  apply (argument_vector
           (Sample.world Sample.environ "darwin" [])
           {| Argparse.host := None;
              Argparse.package_dir := Some "/src/out/ndk";
              Argparse.toolchain := None |}
           "darwin").
  split.
  - vm_compute. discriminate.
  - vm_compute. reflexivity.
  - reflexivity.
  - apply host_darwin; reflexivity.
Defined.

(** C5, as stated, fails: on the sample machine the first word of the
    command is [bash], so the vector is not the script name followed by the
    six options. *)
Lemma argument_vector_starts_with_bash :
  let w := Sample.world Sample.environ "linux" [] in
  exists cmd env dir,
    spawns (trace (fst (run w))) = [(cmd, env, dir)] /\
    cmd = [ "bash"; "build-gdb.sh"; "--toolchain-src-dir=/src/toolchain";
            "--ndk-dir=/src/ndk"; "--verbose";
            "--arch=arm,arm64,mips,mips64,x86,x86_64";
            "--package-dir=/src/out/ndk"; "-j8" ] /\
    head cmd = Some "bash" /\
    ~ script_name_first w cmd.
Proof.
  intros w.
  set (args := {| Argparse.host := None;
                  Argparse.package_dir := Some "/src/out/ndk";
                  Argparse.toolchain := None |}).
  assert (Builds w args "linux") as HB.
  { split; [vm_compute; discriminate | vm_compute; reflexivity | reflexivity |].
    apply host_linux; [reflexivity | left; reflexivity]. }
  exists (build_cmd_of w args), (build_env_of w), (gdb_dir w).
  split; [exact (spawns_run w args "linux" HB)|].
  assert (build_cmd_of w args =
            [ "bash"; "build-gdb.sh"; "--toolchain-src-dir=/src/toolchain";
              "--ndk-dir=/src/ndk"; "--verbose";
              "--arch=arm,arm64,mips,mips64,x86,x86_64";
              "--package-dir=/src/out/ndk"; "-j8" ]) as ->
    by (vm_compute; reflexivity).
  split_and!; [reflexivity..|].
  intros (a & b & c & d & H). discriminate H.
Qed.

(** ** Help *)

Lemma parse_help_flags (d : string) (argv : list string) :
  argv = ["--help"] \/ argv = ["-h"] ->
  Argparse.parse_args (ArgParser_with d) argv = Argparse.HelpRequested.
Proof. by intros [-> | ->]. Qed.

(** C6, as the code has it.  When the root is set, a command line that only
    asks for help prints the description and the list of flags and exits with
    status zero: nothing else is printed, the working directory and the
    environment are untouched, no child is started. *)
Theorem help_with_root_set (w : World) :
  root w <> "" ->
  sys_argv w = ["--help"] \/ sys_argv w = ["-h"] ->
  exists p,
    run w =
      ({| cwd := cwd0 w; store := [environ0 w]; trace := [HelpMessage p] |},
       inl (SystemExit (inl 0))) /\
    exit_status (snd (run w)) = 0 /\
    Argparse.description p = "Builds GDB for Android." /\
    flat_map Argparse.option_strings (Argparse.actions p) =
      ["-h"; "--help"; "--host"; "--package-dir"; "--toolchain"] /\
    spawns (trace (fst (run w))) = [].
Proof.
  intros Hroot Hargv.
  exists (ArgParser_with (default_package_dir w)).
  assert (run w =
            ({| cwd := cwd0 w; store := [environ0 w];
                trace := [HelpMessage (ArgParser_with (default_package_dir w))] |},
             inl (SystemExit (inl 0)))) as ->.
  { unfold run, main.
    erewrite bind_inr by (by apply ArgParser_set).
    by erewrite bind_inl by (by apply parse_args_help, parse_help_flags). }
  by split_and!.
Qed.

Lemma help_with_root_set_witness :
  let w := Sample.world Sample.environ "freebsd" ["--help"] in
  exists p,
    run w =
      ({| cwd := cwd0 w; store := [environ0 w]; trace := [HelpMessage p] |},
       inl (SystemExit (inl 0))) /\
    exit_status (snd (run w)) = 0 /\
    Argparse.description p = "Builds GDB for Android." /\
    flat_map Argparse.option_strings (Argparse.actions p) =
      ["-h"; "--help"; "--host"; "--package-dir"; "--toolchain"] /\
    spawns (trace (fst (run w))) = [].
Proof.
  apply (help_with_root_set (Sample.world Sample.environ "freebsd" ["--help"])).
  - vm_compute. discriminate.
  - left. reflexivity.
Defined.

(** C6, as stated, fails: without the root variable, asking for help ends
    like every other invocation, with the message about the variable and
    status 1, and no help is printed. *)
Lemma help_without_root_fails :
  let w := Sample.world ∅ "linux" ["--help"] in
  environ0 w !! "ANDROID_BUILD_TOP" = None /\
  run w = (initial w, inl (SystemExit (inr not_set_message))) /\
  exit_status (snd (run w)) = 1 /\
  helps (trace (fst (run w))) = [] /\
  ~ (exists p, In (HelpMessage p) (trace (fst (run w))) /\
               exit_status (snd (run w)) = 0).
Proof.
  intros w.
  assert (run w = (initial w, inl (SystemExit (inr not_set_message)))) as ->.
  { unfold run. by apply main_unset. }
  split_and!; try done.
  by intros (p & [] & _).
Qed.

(** ** The host *)

Section HostFacts.

Variables (w : World) (args : Argparse.Namespace).
Hypothesis Hroot : root w <> "".
Hypothesis Hargs :
  Argparse.parse_args (ArgParser_with (default_package_dir w)) (sys_argv w)
  = Argparse.Parsed args.

(** Up to the change of directory. *)
Lemma run_missing_gdb_dir :
  isdir w (gdb_dir w) = false ->
  run w = (initial w, inl (Uncaught (OSError (gdb_dir w)))).
Proof.
  intros Hdir. unfold run, main.
  erewrite bind_inr by (by apply ArgParser_set).
  erewrite bind_inr by (apply parse_args_parsed; exact Hargs).
  erewrite bind_inr by (by apply android_path_set).
  by erewrite bind_inl by (apply os_chdir_fails; exact Hdir).
Qed.

Lemma run_unsupported_host :
  isdir w (gdb_dir w) = true ->
  Argparse.host args = None ->
  ~ In (sys_platform w) ["linux"; "linux2"; "darwin"] ->
  run w =
    ({| cwd := gdb_dir w; store := [environ0 w]; trace := [Chdir (gdb_dir w)] |},
     inl (Uncaught (RuntimeError ("Unsupported host: " +:+ sys_platform w)))).
Proof.
  intros Hdir Hhost Hother. unfold run, main.
  erewrite bind_inr by (by apply ArgParser_set).
  erewrite bind_inr by (apply parse_args_parsed; exact Hargs).
  erewrite bind_inr by (by apply android_path_set).
  erewrite bind_inr by (apply os_chdir_ok; exact Hdir).
  erewrite bind_inr by (by apply android_path_set).
  erewrite bind_inr by (by apply android_path_set).
  erewrite bind_inr by reflexivity.
  rewrite Hhost.
  by erewrite bind_inl by (by apply get_default_host_other).
Qed.

End HostFacts.

Lemma host_resolved_inv (w : World) (args : Argparse.Namespace) (h : string) :
  host_resolved w args h ->
  Argparse.host args = Some h \/
  (Argparse.host args = None /\ (h = "linux" \/ h = "darwin")).
Proof. intros [h' H|H _|H _]; auto. Qed.

(** C7. Without [--host], on [linux] or [linux2] the build is announced for
    [linux] and on [darwin] for [darwin]; on any other platform the run ends,
    once in [toolchain/gdb], with the unsupported-host error, and in no case
    is a child started there.  Detection never yields [windows] or
    [windows64]: a build for one of them has it from [--host]. *)
Theorem host_detection (w : World) (args : Argparse.Namespace) :
  root w <> "" ->
  Argparse.parse_args (ArgParser_with (default_package_dir w)) (sys_argv w)
  = Argparse.Parsed args ->
  (Argparse.host args = None ->
   (isdir w (gdb_dir w) = true ->
    (In (sys_platform w) ["linux"; "linux2"] ->
       trace (fst (run w)) !! 1%nat =
         Some (Stdout ("Building linux gdb: " +:+ Str.join " " (selected args)))) /\
    (sys_platform w = "darwin" ->
       trace (fst (run w)) !! 1%nat =
         Some (Stdout ("Building darwin gdb: " +:+ Str.join " " (selected args)))) /\
    (~ In (sys_platform w) ["linux"; "linux2"; "darwin"] ->
       run w =
         ({| cwd := gdb_dir w; store := [environ0 w];
             trace := [Chdir (gdb_dir w)] |},
          inl (Uncaught (RuntimeError ("Unsupported host: " +:+ sys_platform w)))))) /\
   (~ In (sys_platform w) ["linux"; "linux2"; "darwin"] ->
      spawns (trace (fst (run w))) = [] /\ exit_status (snd (run w)) = 1)) /\
  (forall s s' h', get_default_host w s = (s', inr h') ->
                   h' = "linux" \/ h' = "darwin") /\
  (forall h, Builds w args h -> In h ["windows"; "windows64"] ->
             Argparse.host args = Some h) /\
  (forall h, Argparse.host args = Some h -> isdir w (gdb_dir w) = true ->
             trace (fst (run w)) !! 1%nat =
               Some (Stdout ("Building " +:+ h +:+ " gdb: " +:+
                             Str.join " " (selected args)))).
Proof.
  intros Hroot Hargs. split_and!.
  - intros Hhost. split.
    + intros Hdir. split_and!.
      * intros Hl.
        by rewrite (run_builds w args "linux"
                      (Build_Builds _ _ _ Hroot Hargs Hdir (host_linux _ _ Hhost Hl))).
      * intros Hd.
        by rewrite (run_builds w args "darwin"
                      (Build_Builds _ _ _ Hroot Hargs Hdir (host_darwin _ _ Hhost Hd))).
      * by apply (run_unsupported_host w args).
    + intros Hother. destruct (isdir w (gdb_dir w)) eqn:Hdir.
      * by rewrite (run_unsupported_host w args).
      * by rewrite (run_missing_gdb_dir w args).
  - intros s s' h'.
    destruct (decide (In (sys_platform w) ["linux"; "linux2"])) as [Hl|Hnl].
    { rewrite get_default_host_linux by done. intros [= _ <-]. by left. }
    destruct (decide (sys_platform w = "darwin")) as [Hd|Hnd].
    { rewrite get_default_host_darwin by done. intros [= _ <-]. by right. }
    rewrite get_default_host_other; [done|].
    simpl in *. intuition congruence.
  - intros h HB Hw.
    destruct (host_resolved_inv _ _ _ (builds_host _ _ _ HB)) as [H|[_ [-> | ->]]];
      [done|exfalso..]; simpl in Hw; intuition discriminate.
  - intros h Hh Hdir.
    by rewrite (run_builds w args h
                  (Build_Builds _ _ _ Hroot Hargs Hdir (host_given _ _ _ Hh))).
Qed.

Lemma host_detection_witness :
  let w := Sample.world Sample.environ "win32" [] in
  let args := {| Argparse.host := None;
                 Argparse.package_dir := Some "/src/out/ndk";
                 Argparse.toolchain := None |} in
  (Argparse.host args = None ->
   (isdir w (gdb_dir w) = true ->
    (In (sys_platform w) ["linux"; "linux2"] ->
       trace (fst (run w)) !! 1%nat =
         Some (Stdout ("Building linux gdb: " +:+ Str.join " " (selected args)))) /\
    (sys_platform w = "darwin" ->
       trace (fst (run w)) !! 1%nat =
         Some (Stdout ("Building darwin gdb: " +:+ Str.join " " (selected args)))) /\
    (~ In (sys_platform w) ["linux"; "linux2"; "darwin"] ->
       run w =
         ({| cwd := gdb_dir w; store := [environ0 w];
             trace := [Chdir (gdb_dir w)] |},
          inl (Uncaught (RuntimeError ("Unsupported host: " +:+ sys_platform w)))))) /\
   (~ In (sys_platform w) ["linux"; "linux2"; "darwin"] ->
      spawns (trace (fst (run w))) = [] /\ exit_status (snd (run w)) = 1)) /\
  (forall s s' h', get_default_host w s = (s', inr h') ->
                   h' = "linux" \/ h' = "darwin") /\
  (forall h, Builds w args h -> In h ["windows"; "windows64"] ->
             Argparse.host args = Some h) /\
  (forall h, Argparse.host args = Some h -> isdir w (gdb_dir w) = true ->
             trace (fst (run w)) !! 1%nat =
               Some (Stdout ("Building " +:+ h +:+ " gdb: " +:+
                             Str.join " " (selected args)))).
Proof.
  apply (host_detection
           (Sample.world Sample.environ "win32" [])
           {| Argparse.host := None;
              Argparse.package_dir := Some "/src/out/ndk";
              Argparse.toolchain := None |}).
  - vm_compute. discriminate.
  - vm_compute. reflexivity.
Defined.

(** ** The environment of the child *)

(** C8. The child gets the environment of the parent with
    [NDK_BUILDTOOLS_PATH] and [ANDROID_NDK_ROOT] set anew: every other
    variable is passed on as it is, and [os.environ] itself is the same after
    the run as before. *)
Theorem child_environment (w : World) (args : Argparse.Namespace) (h : string) :
  Builds w args h ->
  exists cmd env dir,
    spawns (trace (fst (run w))) = [(cmd, env, dir)] /\
    env = <["ANDROID_NDK_ROOT" := ndk_dir w]>
            (<["NDK_BUILDTOOLS_PATH" := build_tools_dir w]> (environ0 w)) /\
    env !! "NDK_BUILDTOOLS_PATH" = Some (build_tools_dir w) /\
    env !! "ANDROID_NDK_ROOT" = Some (ndk_dir w) /\
    (forall k, k <> "NDK_BUILDTOOLS_PATH" -> k <> "ANDROID_NDK_ROOT" ->
               env !! k = environ0 w !! k) /\
    dom env = {["NDK_BUILDTOOLS_PATH"; "ANDROID_NDK_ROOT"]} ∪ dom (environ0 w) /\
    store (fst (run w)) !! os_environ = Some (environ0 w).
Proof.
  intros HB.
  exists (build_cmd_of w args), (build_env_of w), (gdb_dir w).
  split; [by eapply spawns_run|].
  rewrite (run_builds w args h HB). unfold build_env_of.
  split_and!; try done.
  - by rewrite lookup_insert_ne, lookup_insert_eq.
  - by rewrite lookup_insert_eq.
  - intros k H1 H2. by rewrite !lookup_insert_ne.
  - rewrite !dom_insert_L. apply set_eq. intros x.
    rewrite !elem_of_union, !elem_of_singleton. tauto.
Qed.

Lemma child_environment_witness :
  let w := Sample.world Sample.environ "linux" ["--host"; "windows64"] in
  exists cmd env dir,
    spawns (trace (fst (run w))) = [(cmd, env, dir)] /\
    env = <["ANDROID_NDK_ROOT" := ndk_dir w]>
            (<["NDK_BUILDTOOLS_PATH" := build_tools_dir w]> (environ0 w)) /\
    env !! "NDK_BUILDTOOLS_PATH" = Some (build_tools_dir w) /\
    env !! "ANDROID_NDK_ROOT" = Some (ndk_dir w) /\
    (forall k, k <> "NDK_BUILDTOOLS_PATH" -> k <> "ANDROID_NDK_ROOT" ->
               env !! k = environ0 w !! k) /\
    dom env = {["NDK_BUILDTOOLS_PATH"; "ANDROID_NDK_ROOT"]} ∪ dom (environ0 w) /\
    store (fst (run w)) !! os_environ = Some (environ0 w).
Proof.
  apply (child_environment
           (Sample.world Sample.environ "linux" ["--host"; "windows64"])
           {| Argparse.host := Some "windows64";
              Argparse.package_dir := Some "/src/out/ndk";
              Argparse.toolchain := None |}
           "windows64").
  split.
  - vm_compute. discriminate.
  - vm_compute. reflexivity.
  - reflexivity.
  - apply host_given. reflexivity.
Defined.

(** ** The package directory *)

Lemma not_dash_start (v : string) :
  Str.startswith v "-" = false ->
  v = "" \/ exists c v', v = String c v' /\ Ascii.eqb c "-" = false.
Proof.
  destruct v as [|c v']; [by left|]. right. exists c, v'. split; [done|].
  unfold Str.startswith in H. simpl in H.
  destruct (Ascii.eqb_spec c "-") as [->|]; [|done].
  by destruct v'.
Qed.

Lemma parse_package_dir_next (d v : string) :
  Str.startswith v "-" = false ->
  Argparse.parse_args (ArgParser_with d) ["--package-dir"; v] =
    Argparse.Parsed {| Argparse.host := None;
                       Argparse.package_dir := Some v;
                       Argparse.toolchain := None |}.
Proof.
  intros H. apply not_dash_start in H as [->|(c & v' & -> & Hc)]; [done|].
  unfold Argparse.parse_args. cbn. rewrite Hc. by cbn.
Qed.

Lemma parse_package_dir_equals (d v : string) :
  Argparse.parse_args (ArgParser_with d) ["--package-dir=" +:+ v] =
    Argparse.Parsed {| Argparse.host := None;
                       Argparse.package_dir := Some v;
                       Argparse.toolchain := None |}.
Proof. reflexivity. Qed.

(** C10. The word [--package-dir=] of the command carries the value the
    parser holds, as it is.  A value given on the command line goes there
    unchanged, neither joined with the root nor made canonical; without the
    option the value is the canonical path of the root joined with
    [out/ndk]. *)
Theorem package_dir_argument (w : World) (args : Argparse.Namespace) (h : string) :
  Builds w args h ->
  exists cmd env dir value,
    spawns (trace (fst (run w))) = [(cmd, env, dir)] /\
    Argparse.package_dir args = Some value /\
    cmd !! 6%nat = Some ("--package-dir=" +:+ value) /\
    (sys_argv w = [] ->
       value = realpath w (cwd0 w) (Posixpath.join (root w) "out/ndk")) /\
    (forall v, Str.startswith v "-" = false ->
               sys_argv w = ["--package-dir"; v] \/
               sys_argv w = ["--package-dir=" +:+ v] ->
               value = v).
Proof.
  intros HB.
  destruct (args_valid _ _ _ HB) as (_ & _ & [value Hv]).
  pose proof (builds_args _ _ _ HB) as Hargs.
  exists (build_cmd_of w args), (build_env_of w), (gdb_dir w), value.
  split; [by eapply spawns_run|]. split; [done|].
  split_and!.
  - unfold build_cmd_of. by rewrite Hv.
  - intros Hargv. rewrite Hargv, parse_args_no_arguments in Hargs.
    injection Hargs as <-. by injection Hv as <-.
  - intros v Hdash [Hargv|Hargv]; rewrite Hargv in Hargs.
    + rewrite parse_package_dir_next in Hargs by done.
      injection Hargs as <-. by injection Hv as <-.
    + rewrite parse_package_dir_equals in Hargs.
      injection Hargs as <-. by injection Hv as <-.
Qed.

Lemma package_dir_argument_witness :
  let w := Sample.world Sample.environ "linux" ["--package-dir"; "out/../pkg"] in
  let args := {| Argparse.host := None;
                 Argparse.package_dir := Some "out/../pkg";
                 Argparse.toolchain := None |} in
  exists cmd env dir value,
    spawns (trace (fst (run w))) = [(cmd, env, dir)] /\
    Argparse.package_dir args = Some value /\
    cmd !! 6%nat = Some ("--package-dir=" +:+ value) /\
    (sys_argv w = [] ->
       value = realpath w (cwd0 w) (Posixpath.join (root w) "out/ndk")) /\
    (forall v, Str.startswith v "-" = false ->
               sys_argv w = ["--package-dir"; v] \/
               sys_argv w = ["--package-dir=" +:+ v] ->
               value = v).
Proof.
  apply (package_dir_argument
           (Sample.world Sample.environ "linux" ["--package-dir"; "out/../pkg"])
           {| Argparse.host := None;
              Argparse.package_dir := Some "out/../pkg";
              Argparse.toolchain := None |}
           "linux").
  split.
  - vm_compute. discriminate.
  - vm_compute. reflexivity.
  - reflexivity.
  - apply host_linux; [reflexivity | left; reflexivity].
Defined.

(** ** Where the paths come from *)

Section Independence.

Context {A B : Type}.

Lemma independent_bind (m : M A) (k : A -> M B) :
  script_independent m ->
  (forall a, script_independent (k a)) ->
  script_independent (m ≫= k).
Proof.
  intros Hm Hk w file s. unfold mbind, M_bind, bind. rewrite Hm.
  destruct (m w s) as [s' [r|a]]; [done|apply Hk].
Qed.

(** Reading the world is harmless when only fields other than the script's
    location are looked at. *)
Lemma independent_ask (k : World -> M B) :
  (forall w0, script_independent (k w0)) ->
  (forall w file, k (with_script_file w file) = k w) ->
  script_independent (ask ≫= k).
Proof.
  intros Hk Hproj w file s. unfold mbind, M_bind, bind, ask.
  by rewrite Hproj, Hk.
Qed.

End Independence.

Lemma independent_android_path path : script_independent (android_path path).
Proof.
  apply independent_bind; [done|]. intros top.
  by destruct (String.eqb top "").
Qed.

Lemma independent_get_default_host : script_independent get_default_host.
Proof.
  apply independent_ask; [|done]. intros w0.
  destruct (existsb _ _); [done|]. by destruct (String.eqb _ _).
Qed.

Lemma independent_ArgParser : script_independent ArgParser.
Proof. apply independent_bind; [apply independent_android_path|done]. Qed.

Lemma independent_parse_args p : script_independent (parse_args p).
Proof.
  apply independent_ask; [|done]. intros w0.
  by destruct (Argparse.parse_args p (sys_argv w0)).
Qed.

Lemma independent_toolchain_to_arch tc : script_independent (toolchain_to_arch tc).
Proof. unfold toolchain_to_arch. by destruct (toolchain_arch_table !! tc). Qed.

Lemma independent_mapM_toolchain_to_arch tcs :
  script_independent (mapM toolchain_to_arch tcs).
Proof.
  induction tcs as [|tc tcs IH]; [done|]. cbn [mapM].
  apply independent_bind; [apply independent_toolchain_to_arch|]. intros a.
  apply independent_bind; [exact IH|done].
Qed.

Lemma independent_subprocess_check_call cmd env :
  script_independent (subprocess_check_call cmd env).
Proof.
  apply independent_bind; [done|]. intros e.
  apply independent_bind; [done|]. intros s.
  apply independent_bind; [done|]. intros _.
  apply independent_ask; [|done]. intros w0.
  by destruct (child w0 cmd e (cwd s)) as [[| |]|].
Qed.

Lemma independent_sysroot_path t : script_independent (sysroot_path t).
Proof.
  apply independent_bind; [apply independent_toolchain_to_arch|]. intros arch.
  apply independent_android_path.
Qed.

Lemma independent_main : script_independent main.
Proof.
  apply independent_bind; [apply independent_ArgParser|]. intros parser.
  apply independent_bind; [apply independent_parse_args|]. intros args.
  apply independent_bind; [apply independent_android_path|]. intros dir.
  apply independent_bind; [done|]. intros _.
  apply independent_bind; [apply independent_android_path|]. intros toolchain_path.
  apply independent_bind; [apply independent_android_path|]. intros ndk_path.
  apply independent_ask; [|done]. intros w0.
  apply independent_bind.
  { destruct (Argparse.host args); [done|apply independent_get_default_host]. }
  intros host.
  apply independent_bind; [apply independent_android_path|]. intros tools.
  apply independent_bind; [done|]. intros build_env.
  apply independent_bind; [done|]. intros _.
  apply independent_bind; [done|]. intros _.
  apply independent_bind; [done|]. intros _.
  apply independent_bind; [apply independent_mapM_toolchain_to_arch|]. intros archs.
  apply independent_bind; [done|]. intros _.
  apply independent_subprocess_check_call.
Qed.

(** C9. With the root set, every path the script derives is the canonical
    path of the root joined with a fixed relative path: the root itself, the
    default package directory, a sysroot, and in a build the directory
    entered, the toolchain sources, the NDK and its build tools.  Where the
    script itself is stored changes nothing. *)
Theorem derived_paths (w : World) :
  root w <> "" ->
  (forall rel s, top_of s = root w ->
     android_path rel w s =
       (s, inr (realpath w (cwd s) (Posixpath.join (root w) rel)))) /\
  (forall s, top_of s = root w ->
     android_path "" w s =
       (s, inr (realpath w (cwd s) (Posixpath.join (root w) "")))) /\
  (forall s, top_of s = root w ->
     get_default_package_dir w s =
       (s, inr (realpath w (cwd s) (Posixpath.join (root w) "out/ndk")))) /\
  (forall t arch s, top_of s = root w -> toolchain_arch_table !! t = Some arch ->
     sysroot_path t w s =
       (s, inr (realpath w (cwd s)
                  (Posixpath.join (root w)
                     ("prebuilts/ndk/current/platforms/android-" +:+
                      Str.of_nat (default_api_level arch) +:+ "/arch-" +:+ arch))))) /\
  (forall args h, Builds w args h ->
     exists cmd env dir,
       spawns (trace (fst (run w))) = [(cmd, env, dir)] /\
       trace (fst (run w)) !! 0%nat = Some (Chdir dir) /\
       dir = realpath w (cwd0 w) (Posixpath.join (root w) "toolchain/gdb") /\
       cmd !! 2%nat =
         Some ("--toolchain-src-dir=" +:+
               realpath w dir (Posixpath.join (root w) "toolchain")) /\
       cmd !! 3%nat =
         Some ("--ndk-dir=" +:+ realpath w dir (Posixpath.join (root w) "ndk")) /\
       env !! "ANDROID_NDK_ROOT" =
         Some (realpath w dir (Posixpath.join (root w) "ndk")) /\
       env !! "NDK_BUILDTOOLS_PATH" =
         Some (realpath w dir (Posixpath.join (root w) "ndk/build/tools")) /\
       (sys_argv w = [] ->
          cmd !! 6%nat =
            Some ("--package-dir=" +:+
                  realpath w (cwd0 w) (Posixpath.join (root w) "out/ndk")))) /\
  (forall file,
     run (with_script_file w file) = run w /\
     (forall rel s, android_path rel (with_script_file w file) s = android_path rel w s) /\
     (forall t s, sysroot_path t (with_script_file w file) s = sysroot_path t w s)).
Proof.
  intros Hroot.
  assert (forall rel s, top_of s = root w ->
            android_path rel w s =
              (s, inr (realpath w (cwd s) (Posixpath.join (root w) rel)))) as Hpath.
  { intros rel s Hs. rewrite <- Hs. apply android_path_set. by rewrite Hs. }
  split_and!.
  - exact Hpath.
  - intros s. apply Hpath.
  - intros s. apply Hpath.
  - intros t arch s Hs Ht. rewrite <- Hs.
    apply sysroot_path_known; [by rewrite Hs|done].
  - intros args h HB.
    exists (build_cmd_of w args), (build_env_of w), (gdb_dir w).
    split; [by eapply spawns_run|].
    rewrite (run_builds w args h HB).
    split_and!; try done.
    + unfold build_env_of. by rewrite lookup_insert_eq.
    + unfold build_env_of. by rewrite lookup_insert_ne, lookup_insert_eq.
    + intros Hargv. pose proof (builds_args _ _ _ HB) as Hargs.
      rewrite Hargv, parse_args_no_arguments in Hargs. by injection Hargs as <-.
  - intros file. split_and!.
    + apply independent_main.
    + intros rel s. apply independent_android_path.
    + intros t s. apply independent_sysroot_path.
Qed.

Lemma derived_paths_witness :
  let w := Sample.world Sample.environ "linux" [] in
  (forall rel s, top_of s = root w ->
     android_path rel w s =
       (s, inr (realpath w (cwd s) (Posixpath.join (root w) rel)))) /\
  (forall s, top_of s = root w ->
     android_path "" w s =
       (s, inr (realpath w (cwd s) (Posixpath.join (root w) "")))) /\
  (forall s, top_of s = root w ->
     get_default_package_dir w s =
       (s, inr (realpath w (cwd s) (Posixpath.join (root w) "out/ndk")))) /\
  (forall t arch s, top_of s = root w -> toolchain_arch_table !! t = Some arch ->
     sysroot_path t w s =
       (s, inr (realpath w (cwd s)
                  (Posixpath.join (root w)
                     ("prebuilts/ndk/current/platforms/android-" +:+
                      Str.of_nat (default_api_level arch) +:+ "/arch-" +:+ arch))))) /\
  (forall args h, Builds w args h ->
     exists cmd env dir,
       spawns (trace (fst (run w))) = [(cmd, env, dir)] /\
       trace (fst (run w)) !! 0%nat = Some (Chdir dir) /\
       dir = realpath w (cwd0 w) (Posixpath.join (root w) "toolchain/gdb") /\
       cmd !! 2%nat =
         Some ("--toolchain-src-dir=" +:+
               realpath w dir (Posixpath.join (root w) "toolchain")) /\
       cmd !! 3%nat =
         Some ("--ndk-dir=" +:+ realpath w dir (Posixpath.join (root w) "ndk")) /\
       env !! "ANDROID_NDK_ROOT" =
         Some (realpath w dir (Posixpath.join (root w) "ndk")) /\
       env !! "NDK_BUILDTOOLS_PATH" =
         Some (realpath w dir (Posixpath.join (root w) "ndk/build/tools")) /\
       (sys_argv w = [] ->
          cmd !! 6%nat =
            Some ("--package-dir=" +:+
                  realpath w (cwd0 w) (Posixpath.join (root w) "out/ndk")))) /\
  (forall file,
     run (with_script_file w file) = run w /\
     (forall rel s, android_path rel (with_script_file w file) s = android_path rel w s) /\
     (forall t s, sysroot_path t (with_script_file w file) s = sysroot_path t w s)).
Proof.
  apply (derived_paths (Sample.world Sample.environ "linux" [])).
  vm_compute. discriminate.
Defined.

(** ** The script on the sample machine *)

Example sample_build_all :
  let w := Sample.world Sample.environ "linux2" [] in
  commands (trace (fst (run w))) =
    [[ "bash"; "build-gdb.sh"; "--toolchain-src-dir=/src/toolchain";
       "--ndk-dir=/src/ndk"; "--verbose";
       "--arch=arm,arm64,mips,mips64,x86,x86_64";
       "--package-dir=/src/out/ndk"; "-j8" ]] /\
  trace (fst (run w)) !! 1%nat =
    Some (Stdout ("Building linux gdb: arm-linux-androideabi " +:+
                  "aarch64-linux-android mipsel-linux-android " +:+
                  "mips64el-linux-android x86 x86_64")) /\
  exit_status (snd (run w)) = 0.
Proof. vm_compute. by split_and!. Qed.

Example sample_build_one :
  let w := Sample.world Sample.environ "darwin"
             ["--toolchain"; "aarch64-linux-android"; "--host=windows";
              "--package-dir"; "out/../pkg"] in
  commands (trace (fst (run w))) =
    [[ "bash"; "build-gdb.sh"; "--toolchain-src-dir=/src/toolchain";
       "--ndk-dir=/src/ndk"; "--verbose"; "--arch=arm64";
       "--package-dir=out/../pkg"; "-j8" ]] /\
  trace (fst (run w)) !! 1%nat =
    Some (Stdout "Building windows gdb: aarch64-linux-android").
Proof. vm_compute. by split_and!. Qed.

(** Unique prefixes of the long options are accepted, ambiguous ones are
    not. *)
Example sample_abbreviations :
  let w := Sample.world Sample.environ "linux" ["--tool"; "x86"; "--ho=linux"] in
  let w' := Sample.world Sample.environ "linux" ["--h"] in
  commands (trace (fst (run w))) =
    [[ "bash"; "build-gdb.sh"; "--toolchain-src-dir=/src/toolchain";
       "--ndk-dir=/src/ndk"; "--verbose"; "--arch=x86";
       "--package-dir=/src/out/ndk"; "-j8" ]] /\
  exit_status (snd (run w')) = 2 /\
  commands (trace (fst (run w'))) = [].
Proof. vm_compute. by split_and!. Qed.

(** Values outside the choices, stray words and options without their value
    end the run with status 2 before anything is done. *)
Example sample_usage_errors :
  Forall (fun argv =>
            let w := Sample.world Sample.environ "linux" argv in
            exit_status (snd (run w)) = 2 /\
            cwd (fst (run w)) = "/home/dev" /\
            commands (trace (fst (run w))) = [])
         [ ["--host"; "freebsd"]; ["--toolchain=riscv64"]; ["gdb"];
           ["--package-dir"]; ["--package-dir"; "-x"]; ["--help=yes"];
           ["--verbose"] ].
Proof. repeat constructor; by vm_compute. Qed.

(** The directory [toolchain/gdb] is entered before the host is looked at. *)
Example sample_missing_directory :
  let w := Sample.world_without_gdb_dir "win32" [] in
  snd (run w) = inl (Uncaught (OSError "/src/toolchain/gdb")) /\
  trace (fst (run w)) = [].
Proof. vm_compute. by split_and!. Qed.

(** A relative root is resolved against the working directory of the moment:
    the paths computed after the change of directory are taken from inside
    [toolchain/gdb]. *)
Example sample_relative_root :
  let w := Sample.world {[ "ANDROID_BUILD_TOP" := "src" ]} "linux" [] in
  commands (trace (fst (run w))) =
    [[ "bash"; "build-gdb.sh";
       "--toolchain-src-dir=/home/dev/src/toolchain/gdb/src/toolchain";
       "--ndk-dir=/home/dev/src/toolchain/gdb/src/ndk"; "--verbose";
       "--arch=arm,arm64,mips,mips64,x86,x86_64";
       "--package-dir=/home/dev/src/out/ndk"; "-j8" ]] /\
  cwd (fst (run w)) = "/home/dev/src/toolchain/gdb".
Proof. vm_compute. by split_and!. Qed.

(** * Further properties of the script *)

(** ** Every run ends in one of six ways *)

Lemma run_help (w : World) :
  root w <> "" ->
  Argparse.parse_args (ArgParser_with (default_package_dir w)) (sys_argv w)
  = Argparse.HelpRequested ->
  run w = (after_event w (HelpMessage (ArgParser_with (default_package_dir w))),
           inl (SystemExit (inl 0))).
Proof.
  intros Hroot Hp. unfold run, main.
  erewrite bind_inr by (by apply ArgParser_set).
  by erewrite bind_inl by (apply parse_args_help; exact Hp).
Qed.

Lemma run_usage (w : World) (e : Argparse.ParseError) :
  root w <> "" ->
  Argparse.parse_args (ArgParser_with (default_package_dir w)) (sys_argv w)
  = Argparse.Failed e ->
  run w = (after_event w (UsageError (ArgParser_with (default_package_dir w)) e),
           inl (SystemExit (inl 2))).
Proof.
  intros Hroot Hp. unfold run, main.
  erewrite bind_inr by (by apply ArgParser_set).
  by erewrite bind_inl by (apply parse_args_failed; exact Hp).
Qed.

Lemma run_ending (w : World) : Ending w (run w).
Proof.
  destruct (decide (root w = "")) as [Hroot|Hroot].
  { unfold run. rewrite main_unset by done. by constructor. }
  destruct (Argparse.parse_args (ArgParser_with (default_package_dir w)) (sys_argv w))
    as [args| |e] eqn:Hp.
  - destruct (isdir w (gdb_dir w)) eqn:Hdir; cycle 1.
    { rewrite (run_missing_gdb_dir w args) by done. by eapply ending_no_directory. }
    destruct (Argparse.host args) as [h|] eqn:Hh.
    { rewrite (run_builds w args h); [by apply ending_build; split; [| | |apply host_given]|].
      split; [done..|by apply host_given]. }
    destruct (decide (In (sys_platform w) ["linux"; "linux2"])) as [Hl|Hnl].
    { assert (Builds w args "linux") as HB by (split; [done..|by apply host_linux]).
      rewrite (run_builds w args "linux" HB). by apply ending_build. }
    destruct (decide (sys_platform w = "darwin")) as [Hd|Hnd].
    { assert (Builds w args "darwin") as HB by (split; [done..|by apply host_darwin]).
      rewrite (run_builds w args "darwin" HB). by apply ending_build. }
    assert (~ In (sys_platform w) ["linux"; "linux2"; "darwin"]) as Hother.
    { simpl in *. intuition congruence. }
    rewrite (run_unsupported_host w args) by done. by eapply ending_no_host.
  - rewrite run_help by done. by apply ending_help.
  - rewrite (run_usage w e) by done. by apply ending_usage.
Qed.

(** ** The toolchain table *)

(** X1. [toolchain_to_arch] answers exactly for the six toolchains of
    [ALL_TOOLCHAINS], leaving the state alone; for any other name it raises
    [KeyError] with that name; and no two toolchains share a tag. *)
Theorem toolchain_to_arch_domain (w : World) (s : State) :
  (forall tc,
     (In tc ALL_TOOLCHAINS <->
      exists arch, toolchain_to_arch tc w s = (s, inr arch)) /\
     (~ In tc ALL_TOOLCHAINS <->
      toolchain_to_arch tc w s = (s, inl (Uncaught (KeyError tc))))) /\
  (forall tc1 tc2 arch,
     toolchain_to_arch tc1 w s = (s, inr arch) ->
     toolchain_to_arch tc2 w s = (s, inr arch) ->
     tc1 = tc2).
Proof.
  assert (forall tc arch, toolchain_to_arch tc w s = (s, inr arch) ->
                          In tc ALL_TOOLCHAINS /\ arch = arch_of tc) as Hinv.
  { intros tc arch H.
    destruct (decide (In tc ALL_TOOLCHAINS)) as [Hin|Hout].
    - rewrite toolchain_to_arch_known in H by done. by injection H as <-.
    - by rewrite toolchain_to_arch_unknown in H by done. }
  split.
  - intros tc. split; split.
    + intros Hin. exists (arch_of tc). by apply toolchain_to_arch_known.
    + intros [arch H]. by apply Hinv in H as [? _].
    + apply toolchain_to_arch_unknown.
    + intros H Hin. by rewrite toolchain_to_arch_known in H by done.
  - intros tc1 tc2 arch H1 H2.
    apply Hinv in H1 as [Hin1 ->]. apply Hinv in H2 as [Hin2 Heq].
    simpl in Hin1, Hin2.
    destruct Hin1 as [<-|[<-|[<-|[<-|[<-|[<-|[]]]]]]];
      destruct Hin2 as [<-|[<-|[<-|[<-|[<-|[<-|[]]]]]]];
      first [reflexivity | discriminate Heq].
Qed.

(** X2. [sysroot_path] looks the toolchain up before it asks for the root:
    an unknown toolchain is a [KeyError] whatever the environment holds, and a
    known one without the root ends with the message about the variable.  In
    both cases nothing has been done. *)
Theorem sysroot_path_errors (w : World) (s : State) (t : string) :
  (~ In t ALL_TOOLCHAINS ->
   sysroot_path t w s = (s, inl (Uncaught (KeyError t)))) /\
  (In t ALL_TOOLCHAINS -> top_of s = "" ->
   sysroot_path t w s = (s, inl (SystemExit (inr not_set_message)))) /\
  (forall s' r, sysroot_path t w s = (s', r) -> s' = s).
Proof.
  assert (~ In t ALL_TOOLCHAINS ->
          sysroot_path t w s = (s, inl (Uncaught (KeyError t)))) as Hout.
  { intros H. unfold sysroot_path.
    by erewrite bind_inl by (by apply toolchain_to_arch_unknown). }
  assert (forall path s' r, android_path path w s = (s', r) -> s' = s) as Hpath.
  { intros path s' r. destruct (decide (top_of s = "")) as [He|Hne].
    - rewrite android_path_unset by done. by intros [= <- _].
    - rewrite android_path_set by done. by intros [= <- _]. }
  split_and!.
  - exact Hout.
  - intros Hin He. unfold sysroot_path.
    erewrite bind_inr by (by apply toolchain_to_arch_known).
    by apply android_path_unset.
  - intros s' r. destruct (decide (In t ALL_TOOLCHAINS)) as [Hin|Hnin].
    + unfold sysroot_path.
      erewrite bind_inr by (by apply toolchain_to_arch_known).
      apply Hpath.
    + rewrite Hout by done. by intros [= <- _].
Qed.

(** ** The root *)

(** X3. An absolute path given to [android_path] is resolved as it is: the
    value of the root plays no part, though the root must still be set, for
    without it the call ends with the message even for an absolute path. *)
Theorem android_path_absolute (w : World) (s : State) (path : string) :
  Posixpath.isabs path = true ->
  (top_of s <> "" ->
   android_path path w s = (s, inr (realpath w (cwd s) path))) /\
  (top_of s = "" ->
   android_path path w s = (s, inl (SystemExit (inr not_set_message)))).
Proof.
  intros Habs. split.
  - intros Hne. rewrite android_path_set by done.
    unfold Posixpath.join. by rewrite Habs.
  - apply android_path_unset.
Qed.

Lemma android_path_absolute_witness :
  let w := Sample.world Sample.environ "linux" [] in
  (top_of (initial w) <> "" ->
   android_path "/opt/ndk" w (initial w) =
     (initial w, inr (realpath w (cwd (initial w)) "/opt/ndk"))) /\
  (top_of (initial w) = "" ->
   android_path "/opt/ndk" w (initial w) =
     (initial w, inl (SystemExit (inr not_set_message)))).
Proof.
  apply (android_path_absolute
           (Sample.world Sample.environ "linux" [])
           (initial (Sample.world Sample.environ "linux" []))
           "/opt/ndk").
  reflexivity.
Defined.

(** ** The parser of the script *)

Lemma not_choice (value : string) (allowed : list string) :
  ~ In value allowed -> existsb (String.eqb value) allowed = false.
Proof.
  intros H. destruct (existsb _ _) eqn:E; [|done]. by apply choice_in in E.
Qed.

Lemma ArgParser_inv (w : World) (s s1 : State) (p : Argparse.Parser) :
  ArgParser w s = (s1, inr p) ->
  top_of s <> "" /\ s1 = s /\
  p = ArgParser_with (realpath w (cwd s) (Posixpath.join (top_of s) "out/ndk")).
Proof.
  destruct (decide (top_of s = "")) as [He|Hne].
  - by rewrite ArgParser_unset by done.
  - rewrite ArgParser_set by done. by intros [= <- <-].
Qed.

(** X4. Whatever command line the parser built by [ArgParser()] accepts, the
    namespace it returns has a host among the four choices or none, a
    toolchain among [ALL_TOOLCHAINS] or none, and a package directory; so
    [toolchain_to_arch] answers for the toolchain, and accepting a command
    line has written nothing and changed nothing. *)
Theorem accepted_arguments (w : World) (s s1 s2 : State)
    (p : Argparse.Parser) (ns : Argparse.Namespace) :
  ArgParser w s = (s1, inr p) ->
  parse_args p w s1 = (s2, inr ns) ->
  s2 = s /\
  (forall h, Argparse.host ns = Some h ->
             In h ["darwin"; "linux"; "windows"; "windows64"]) /\
  (forall tc, Argparse.toolchain ns = Some tc ->
              In tc ALL_TOOLCHAINS /\
              exists arch, toolchain_to_arch tc w s2 = (s2, inr arch)) /\
  (exists dir, Argparse.package_dir ns = Some dir).
Proof.
  intros Hp Hargs. apply ArgParser_inv in Hp as (Htop & -> & ->).
  destruct (Argparse.parse_args
              (ArgParser_with (realpath w (cwd s) (Posixpath.join (top_of s) "out/ndk")))
              (sys_argv w)) as [ns'| |e] eqn:E.
  - rewrite (parse_args_parsed w _ ns') in Hargs by done.
    injection Hargs as <- <-.
    destruct (parse_args_valid _ _ _ E) as (Hh & Ht & Hd).
    split_and!; [done|done| |done].
    intros tc Htc. split; [by apply Ht|].
    exists (arch_of tc). apply toolchain_to_arch_known. by apply Ht.
  - by rewrite parse_args_help in Hargs by done.
  - by rewrite (parse_args_failed w _ e) in Hargs by done.
Qed.

Lemma accepted_arguments_witness :
  let w := Sample.world Sample.environ "linux"
             ["--toolchain"; "mips64el-linux-android"; "--host=darwin"] in
  let ns := {| Argparse.host := Some "darwin";
               Argparse.package_dir := Some "/src/out/ndk";
               Argparse.toolchain := Some "mips64el-linux-android" |} in
  initial w = initial w /\
  (forall h, Argparse.host ns = Some h ->
             In h ["darwin"; "linux"; "windows"; "windows64"]) /\
  (forall tc, Argparse.toolchain ns = Some tc ->
              In tc ALL_TOOLCHAINS /\
              exists arch, toolchain_to_arch tc w (initial w) = (initial w, inr arch)) /\
  (exists dir, Argparse.package_dir ns = Some dir).
Proof.
  apply (accepted_arguments
           (Sample.world Sample.environ "linux"
              ["--toolchain"; "mips64el-linux-android"; "--host=darwin"])
           (initial (Sample.world Sample.environ "linux"
              ["--toolchain"; "mips64el-linux-android"; "--host=darwin"]))
           (initial (Sample.world Sample.environ "linux"
              ["--toolchain"; "mips64el-linux-android"; "--host=darwin"]))
           (initial (Sample.world Sample.environ "linux"
              ["--toolchain"; "mips64el-linux-android"; "--host=darwin"]))
           (ArgParser_with "/src/out/ndk")
           {| Argparse.host := Some "darwin";
              Argparse.package_dir := Some "/src/out/ndk";
              Argparse.toolchain := Some "mips64el-linux-android" |}).
  - apply ArgParser_set. vm_compute. discriminate.
  - apply parse_args_parsed. vm_compute. reflexivity.
Defined.

Lemma parse_rejects_next (d opt v : string) (a : Argparse.Action) (allowed : list string) :
  Argparse.parse_optional (ArgParser_with d) opt
  = inr (Argparse.POpt (Some a) opt None) ->
  (exists dst, Argparse.kind a = Argparse.StoreAction dst) ->
  Argparse.choices a = Some allowed ->
  ~ In v allowed ->
  exists e, Argparse.parse_args (ArgParser_with d) [opt; v] = Argparse.Failed e.
Proof.
  intros Hopt [dst Hk] Hc Hv. unfold Argparse.parse_args. cbn [Argparse.classify].
  destruct (String.eqb opt "--") eqn:Eo.
  { apply String.eqb_eq in Eo as ->. by vm_compute in Hopt. }
  rewrite Hopt.
  assert (forall pat, pat <> Argparse.PArg ->
            Argparse.consume (ArgParser_with d)
              [(opt, Argparse.POpt (Some a) opt None); (v, pat)]
              (Argparse.defaults (ArgParser_with d)) []
            = Argparse.Failed (Argparse.ExpectedOneArgument opt)) as Hother.
  { intros pat Hpat. cbn [Argparse.consume]. rewrite Hk. by destruct pat. }
  destruct (String.eqb v "--").
  { eexists. by apply Hother. }
  destruct (Argparse.parse_optional (ArgParser_with d) v) as [e|pat]; [by eexists|].
  destruct pat as [| |a' o' e']; [eexists; by apply Hother| |eexists; by apply Hother].
  cbn [Argparse.consume]. rewrite Hk. unfold Argparse.store. rewrite Hc.
  rewrite not_choice by done. by eexists.
Qed.

Lemma parse_rejects_host (d v : string) :
  ~ In v ["darwin"; "linux"; "windows"; "windows64"] ->
  (exists e, Argparse.parse_args (ArgParser_with d) ["--host"; v] = Argparse.Failed e) /\
  (exists e, Argparse.parse_args (ArgParser_with d) ["--host=" +:+ v] = Argparse.Failed e).
Proof.
  intros Hv. split.
  - by eapply parse_rejects_next; [reflexivity | eexists | reflexivity | ].
  - cbn. destruct (_ || _) eqn:E; [|by eexists].
    destruct Hv. by apply choice_in.
Qed.

Lemma parse_rejects_toolchain (d v : string) :
  ~ In v ALL_TOOLCHAINS ->
  (exists e, Argparse.parse_args (ArgParser_with d) ["--toolchain"; v] = Argparse.Failed e) /\
  (exists e, Argparse.parse_args (ArgParser_with d) ["--toolchain=" +:+ v] = Argparse.Failed e).
Proof.
  intros Hv. split.
  - by eapply parse_rejects_next; [reflexivity | eexists | reflexivity | ].
  - cbn. destruct (_ || _) eqn:E; [|by eexists].
    destruct Hv. by apply choice_in.
Qed.

(** X5. With the root set, a [--host] value outside the four choices or a
    [--toolchain] value outside [ALL_TOOLCHAINS], given after the option or
    joined to it with [=], ends the run with a usage error and status 2: the
    directory has not been changed and no child has been started. *)
Theorem value_outside_choices (w : World) (v : string) :
  root w <> "" ->
  (In (sys_argv w) [["--host"; v]; ["--host=" +:+ v]] /\
   ~ In v ["darwin"; "linux"; "windows"; "windows64"]) \/
  (In (sys_argv w) [["--toolchain"; v]; ["--toolchain=" +:+ v]] /\
   ~ In v ALL_TOOLCHAINS) ->
  exists p e,
    run w = ({| cwd := cwd0 w; store := [environ0 w]; trace := [UsageError p e] |},
             inl (SystemExit (inl 2))) /\
    exit_status (snd (run w)) = 2 /\
    spawns (trace (fst (run w))) = [].
Proof.
  intros Hroot Hv.
  assert (exists e,
            Argparse.parse_args (ArgParser_with (default_package_dir w)) (sys_argv w)
            = Argparse.Failed e) as [e He].
  { destruct Hv as [[Hargv Hout]|[Hargv Hout]]; simpl in Hargv.
    - destruct (parse_rejects_host (default_package_dir w) v Hout) as [H1 H2].
      destruct Hargv as [<-|[<-|[]]]; assumption.
    - destruct (parse_rejects_toolchain (default_package_dir w) v Hout) as [H1 H2].
      destruct Hargv as [<-|[<-|[]]]; assumption. }
  exists (ArgParser_with (default_package_dir w)), e.
  by rewrite (run_usage w e Hroot He).
Qed.

Lemma value_outside_choices_witness :
  let w := Sample.world Sample.environ "linux" ["--host"; "freebsd"] in
  exists p e,
    run w = ({| cwd := cwd0 w; store := [environ0 w]; trace := [UsageError p e] |},
             inl (SystemExit (inl 2))) /\
    exit_status (snd (run w)) = 2 /\
    spawns (trace (fst (run w))) = [].
Proof.
  apply (value_outside_choices
           (Sample.world Sample.environ "linux" ["--host"; "freebsd"]) "freebsd").
  - vm_compute. discriminate.
  - left. split; [left; reflexivity|].
    simpl. intuition discriminate.
Defined.

(** ** The ways a run ends *)

(** X6. When [toolchain/gdb] under the root cannot be entered, the run ends
    with the [OSError] of [os.chdir] and status 1 before the host is looked
    at: nothing is printed, no child is started, whatever the platform and
    the options. *)
Theorem missing_directory (w : World) (args : Argparse.Namespace) :
  root w <> "" ->
  Argparse.parse_args (ArgParser_with (default_package_dir w)) (sys_argv w)
  = Argparse.Parsed args ->
  isdir w (realpath w (cwd0 w) (Posixpath.join (root w) "toolchain/gdb")) = false ->
  snd (run w) =
    inl (Uncaught (OSError (realpath w (cwd0 w)
                              (Posixpath.join (root w) "toolchain/gdb")))) /\
  exit_status (snd (run w)) = 1 /\
  trace (fst (run w)) = [] /\
  cwd (fst (run w)) = cwd0 w.
Proof.
  intros Hroot Hargs Hdir. by rewrite (run_missing_gdb_dir w args).
Qed.

Lemma missing_directory_witness :
  let w := Sample.world_without_gdb_dir "win32" ["--toolchain=x86"] in
  snd (run w) =
    inl (Uncaught (OSError (realpath w (cwd0 w)
                              (Posixpath.join (root w) "toolchain/gdb")))) /\
  exit_status (snd (run w)) = 1 /\
  trace (fst (run w)) = [] /\
  cwd (fst (run w)) = cwd0 w.
Proof.
  apply (missing_directory
           (Sample.world_without_gdb_dir "win32" ["--toolchain=x86"])
           {| Argparse.host := None;
              Argparse.package_dir := Some "/src/out/ndk";
              Argparse.toolchain := Some "x86" |}).
  - vm_compute. discriminate.
  - vm_compute. reflexivity.
  - vm_compute. reflexivity.
Defined.

(** X7. In a run that reaches the build, the fate of the child decides the
    end: the run ends normally exactly when the child exits with 0; a child
    that exits with another code [rc] makes it end with
    [CalledProcessError rc] on the command and status 1, not [rc]; a child
    that cannot be started makes it end with an [OSError] and status 1. *)
Theorem child_outcome (w : World) (args : Argparse.Namespace) (h : string) :
  Builds w args h ->
  exists cmd env dir,
    spawns (trace (fst (run w))) = [(cmd, env, dir)] /\
    (snd (run w) = inr tt <-> child w cmd env dir = ChildExited 0) /\
    (forall rc, child w cmd env dir = ChildExited rc -> rc <> 0 ->
       snd (run w) = inl (Uncaught (CalledProcessError rc cmd)) /\
       exit_status (snd (run w)) = 1) /\
    (child w cmd env dir = ChildNotStarted ->
       snd (run w) = inl (Uncaught (OSError "bash")) /\
       exit_status (snd (run w)) = 1).
Proof.
  intros HB.
  exists (build_cmd_of w args), (build_env_of w), (gdb_dir w).
  split; [by eapply spawns_run|].
  rewrite (run_builds w args h HB). cbn [snd].
  destruct (child w _ _ _) as [[|rc|rc]|]; split_and!; try done.
  - by intros rc' [= <-] Hrc.
  - by intros rc' [= <-] _.
  - by intros rc' [= <-] _.
Qed.

Lemma child_outcome_witness :
  let w := sample_world_with_child (ChildExited 2) [] in
  exists cmd env dir,
    spawns (trace (fst (run w))) = [(cmd, env, dir)] /\
    (snd (run w) = inr tt <-> child w cmd env dir = ChildExited 0) /\
    (forall rc, child w cmd env dir = ChildExited rc -> rc <> 0 ->
       snd (run w) = inl (Uncaught (CalledProcessError rc cmd)) /\
       exit_status (snd (run w)) = 1) /\
    (child w cmd env dir = ChildNotStarted ->
       snd (run w) = inl (Uncaught (OSError "bash")) /\
       exit_status (snd (run w)) = 1).
Proof.
  apply (child_outcome
           (sample_world_with_child (ChildExited 2) [])
           {| Argparse.host := None;
              Argparse.package_dir := Some "/src/out/ndk";
              Argparse.toolchain := None |}
           "linux").
  split.
  - vm_compute. discriminate.
  - vm_compute. reflexivity.
  - reflexivity.
  - apply host_linux; [reflexivity | left; reflexivity].
Defined.

Lemma check_call_outcome_not_KeyError cmd r key :
  check_call_outcome cmd r <> inl (Uncaught (KeyError key)).
Proof. by destruct r as [[| |]|]. Qed.

(** X8. The exit status of a run is 0, 1 or 2, whatever the child returns.
    It is 0 exactly when help was printed or a child was started and exited
    with 0, and 2 exactly when the run consists of one usage error. *)
Theorem exit_status_of_a_run (w : World) :
  (exit_status (snd (run w)) = 0 \/
   exit_status (snd (run w)) = 1 \/
   exit_status (snd (run w)) = 2) /\
  (exit_status (snd (run w)) = 0 <->
   helps (trace (fst (run w))) <> [] \/
   exists cmd env dir,
     spawns (trace (fst (run w))) = [(cmd, env, dir)] /\
     child w cmd env dir = ChildExited 0) /\
  (exit_status (snd (run w)) = 2 <->
   exists p e, trace (fst (run w)) = [UsageError p e]).
Proof.
  generalize (run_ending w). generalize (run w). intros r H.
  destruct H as [Hroot|Hroot Hp|e Hroot Hp|args Hroot Hp Hdir
                 |args Hroot Hp Hdir Hh Hother|args h HB];
    cbn [fst snd exit_status].
  - split_and!; [by right; left| |]; split; try done.
    + intros [H|(cmd & env & dir & H & _)]; done.
    + intros (p & e & H). done.
  - split_and!; [by left| |]; split; try done.
    + intros _. by left.
    + intros (p & e & H). done.
  - split_and!; [by right; right| |]; split; try done.
    + intros [H|(cmd & env & dir & H & _)]; done.
    + intros _. by eexists _, _.
  - split_and!; [by right; left| |]; split; try done.
    + intros [H|(cmd & env & dir & H & _)]; done.
    + intros (p & e & H). done.
  - split_and!; [by right; left| |]; split; try done.
    + intros [H|(cmd & env & dir & H & _)]; done.
    + intros (p & e & H). done.
  - unfold after_build; cbn [trace].
    destruct (child w (build_cmd_of w args) (build_env_of w) (gdb_dir w))
      as [[|rc|rc]|] eqn:Hc; cbn [check_call_outcome exit_status].
    + split_and!; [by left| |]; split; try done.
      * intros _. right. by eexists _, _, _.
      * intros (p & e & H). done.
    + split_and!; [by right; left| |]; split; try done.
      * intros [H|(cmd & env & dir & [= <- <- <-] & H)]; [done|congruence].
      * intros (p & e & H). done.
    + split_and!; [by right; left| |]; split; try done.
      * intros [H|(cmd & env & dir & [= <- <- <-] & H)]; [done|congruence].
      * intros (p & e & H). done.
    + split_and!; [by right; left| |]; split; try done.
      * intros [H|(cmd & env & dir & [= <- <- <-] & H)]; [done|congruence].
      * intros (p & e & H). done.
Qed.

(** X9. No run ends with a [KeyError]: by the time [main] maps the
    toolchains to their tags, every one of them is a key of the table. *)
Theorem run_never_KeyError (w : World) (key : string) :
  snd (run w) <> inl (Uncaught (KeyError key)).
Proof.
  generalize (run_ending w). generalize (run w). intros r H.
  destruct H; cbn [snd]; try done.
  apply check_call_outcome_not_KeyError.
Qed.

(** X10. In every run, however it ends, [os.environ] holds at the end what it
    held at the start, the working directory is the one of the start or
    [toolchain/gdb] under the root, and at most one child is started; a child
    is started only from [toolchain/gdb], after the change of directory. *)
Theorem run_frame (w : World) :
  store (fst (run w)) !! os_environ = Some (environ0 w) /\
  (cwd (fst (run w)) = cwd0 w \/
   cwd (fst (run w)) = realpath w (cwd0 w) (Posixpath.join (root w) "toolchain/gdb")) /\
  (length (spawns (trace (fst (run w)))) <= 1)%nat /\
  (forall cmd env dir, In (cmd, env, dir) (spawns (trace (fst (run w)))) ->
     dir = realpath w (cwd0 w) (Posixpath.join (root w) "toolchain/gdb") /\
     cwd (fst (run w)) = dir /\
     trace (fst (run w)) !! 0%nat = Some (Chdir dir)).
Proof.
  generalize (run_ending w). generalize (run w). intros r H.
  destruct H; cbn [fst]; unfold after_event, after_build, initial; cbn [store cwd trace].
  all: split_and!; try done; try (by left); try (by right); simpl; try lia.
  all: intros cmd env dir Hin;
    first [done | by destruct Hin as [[= <- <- <-]|[]]].
Qed.

(** ** What a build shows and what it depends on *)

(** X11. In a run that reaches the build the trace is: the change of
    directory, the line naming the host and the toolchains, the command line,
    the child.  The command line printed is the argument vector of the child
    joined with spaces, the first line lists the chosen toolchain or all six
    by name, and the child works in the directory entered. *)
Theorem build_trace (w : World) (args : Argparse.Namespace) (h : string) :
  Builds w args h ->
  exists cmd env dir toolchains,
    trace (fst (run w)) =
      [ Chdir dir;
        Stdout ("Building " +:+ h +:+ " gdb: " +:+ Str.join " " toolchains);
        Stdout (Str.join " " cmd);
        Spawn cmd env dir ] /\
    cwd (fst (run w)) = dir /\
    (Argparse.toolchain args = None -> toolchains = ALL_TOOLCHAINS) /\
    (forall tc, Argparse.toolchain args = Some tc -> toolchains = [tc]).
Proof.
  intros HB.
  exists (build_cmd_of w args), (build_env_of w), (gdb_dir w), (selected args).
  rewrite (run_builds w args h HB). unfold selected.
  split_and!; try done.
  - by intros ->.
  - by intros tc ->.
Qed.

Lemma build_trace_witness :
  let w := Sample.world Sample.environ "darwin" ["--toolchain=x86"] in
  let args := {| Argparse.host := None;
                 Argparse.package_dir := Some "/src/out/ndk";
                 Argparse.toolchain := Some "x86" |} in
  exists cmd env dir toolchains,
    trace (fst (run w)) =
      [ Chdir dir;
        Stdout ("Building " +:+ "darwin" +:+ " gdb: " +:+ Str.join " " toolchains);
        Stdout (Str.join " " cmd);
        Spawn cmd env dir ] /\
    cwd (fst (run w)) = dir /\
    (Argparse.toolchain args = None -> toolchains = ALL_TOOLCHAINS) /\
    (forall tc, Argparse.toolchain args = Some tc -> toolchains = [tc]).
Proof.
  apply (build_trace
           (Sample.world Sample.environ "darwin" ["--toolchain=x86"])
           {| Argparse.host := None;
              Argparse.package_dir := Some "/src/out/ndk";
              Argparse.toolchain := Some "x86" |}
           "darwin").
  split.
  - vm_compute. discriminate.
  - vm_compute. reflexivity.
  - reflexivity.
  - apply host_darwin; reflexivity.
Defined.

(** X12. With [--host] given, the platform of the machine is never looked
    at: the same run happens on every platform, also on one that detection
    would refuse. *)
Theorem explicit_host_ignores_platform
    (w : World) (args : Argparse.Namespace) (h platform : string) :
  Builds w args h ->
  Argparse.host args = Some h ->
  Builds (with_platform w platform) args h /\
  run (with_platform w platform) = run w.
Proof.
  intros HB Hh.
  assert (Builds (with_platform w platform) args h) as HB'.
  { destruct HB as [Hroot Hargs Hdir _]. split; [exact Hroot|exact Hargs|exact Hdir|].
    by apply host_given. }
  split; [exact HB'|].
  by rewrite (run_builds _ _ _ HB'), (run_builds _ _ _ HB).
Qed.

Lemma explicit_host_ignores_platform_witness :
  let w := Sample.world Sample.environ "linux" ["--host=windows"] in
  let args := {| Argparse.host := Some "windows";
                 Argparse.package_dir := Some "/src/out/ndk";
                 Argparse.toolchain := None |} in
  Builds (with_platform w "win32") args "windows" /\
  run (with_platform w "win32") = run w.
Proof.
  apply (explicit_host_ignores_platform
           (Sample.world Sample.environ "linux" ["--host=windows"])
           {| Argparse.host := Some "windows";
              Argparse.package_dir := Some "/src/out/ndk";
              Argparse.toolchain := None |}
           "windows" "win32").
  - split.
    + vm_compute. discriminate.
    + vm_compute. reflexivity.
    + reflexivity.
    + apply host_given. reflexivity.
  - reflexivity.
Defined.

Section OtherEnvironment.

Variables (w : World) (env : gmap string string).
Hypothesis Hsame : env !! "ANDROID_BUILD_TOP" = environ0 w !! "ANDROID_BUILD_TOP".

Lemma root_with_environ : root (with_environ w env) = root w.
Proof. unfold root. cbn [environ0 with_environ]. by rewrite Hsame. Qed.

Lemma build_cmd_with_environ args :
  build_cmd_of (with_environ w env) args = build_cmd_of w args.
Proof.
  unfold build_cmd_of, toolchain_dir, ndk_dir, gdb_dir.
  rewrite root_with_environ. reflexivity.
Qed.

Lemma gdb_dir_with_environ : gdb_dir (with_environ w env) = gdb_dir w.
Proof. unfold gdb_dir. rewrite root_with_environ. reflexivity. Qed.

Lemma Builds_with_environ args h :
  Builds w args h -> Builds (with_environ w env) args h.
Proof.
  intros [Hroot Hargs Hdir Hhost]. split.
  - by rewrite root_with_environ.
  - unfold default_package_dir. rewrite root_with_environ. exact Hargs.
  - rewrite gdb_dir_with_environ. exact Hdir.
  - destruct Hhost as [h' Hh|Hh Hl|Hh Hd];
      [by apply host_given | by apply host_linux | by apply host_darwin].
Qed.

End OtherEnvironment.

(** X13. The two variables made for the child are not read from the parent:
    whatever the parent holds for [ANDROID_NDK_ROOT] and
    [NDK_BUILDTOOLS_PATH], the child is started with the same command, the
    same environment and in the same directory, and the run ends the same
    way.  More generally, of the parent's environment only
    [ANDROID_BUILD_TOP] has a part in the command. *)
Theorem child_variables_not_inherited
    (w : World) (args : Argparse.Namespace) (h : string) :
  Builds w args h ->
  (forall x y,
     let w' := with_environ w
                 (<["ANDROID_NDK_ROOT" := x]>
                    (<["NDK_BUILDTOOLS_PATH" := y]> (environ0 w))) in
     spawns (trace (fst (run w'))) = spawns (trace (fst (run w))) /\
     snd (run w') = snd (run w)) /\
  (forall env,
     env !! "ANDROID_BUILD_TOP" = environ0 w !! "ANDROID_BUILD_TOP" ->
     commands (trace (fst (run (with_environ w env))))
     = commands (trace (fst (run w)))).
Proof.
  intros HB. split.
  - intros x y. cbv zeta.
    set (env := <["ANDROID_NDK_ROOT" := x]>
                  (<["NDK_BUILDTOOLS_PATH" := y]> (environ0 w))).
    assert (env !! "ANDROID_BUILD_TOP" = environ0 w !! "ANDROID_BUILD_TOP")
      as Hsame by (subst env; by rewrite !lookup_insert_ne).
    pose proof (Builds_with_environ w env Hsame args h HB) as HB'.
    rewrite (run_builds _ args h HB'), (run_builds w args h HB).
    rewrite (build_cmd_with_environ w env Hsame).
    pose proof (gdb_dir_with_environ w env Hsame) as Hdir.
    assert (build_env_of (with_environ w env) = build_env_of w) as ->.
    { unfold build_env_of, ndk_dir, build_tools_dir. rewrite Hdir.
      rewrite (root_with_environ w env Hsame).
      cbn [environ0 realpath with_environ]. subst env.
      apply map_eq. intros k. rewrite !lookup_insert.
      by repeat case_decide. }
    unfold after_build. cbn [fst snd trace]. rewrite Hdir. done.
  - intros env Hsame.
    pose proof (Builds_with_environ w env Hsame args h HB) as HB'.
    unfold commands.
    rewrite (spawns_run _ args h HB'), (spawns_run w args h HB).
    cbn [map fst]. by rewrite (build_cmd_with_environ w env Hsame).
Qed.

Lemma child_variables_not_inherited_witness :
  let w := Sample.world Sample.environ "linux" [] in
  (forall x y,
     let w' := with_environ w
                 (<["ANDROID_NDK_ROOT" := x]>
                    (<["NDK_BUILDTOOLS_PATH" := y]> (environ0 w))) in
     spawns (trace (fst (run w'))) = spawns (trace (fst (run w))) /\
     snd (run w') = snd (run w)) /\
  (forall env,
     env !! "ANDROID_BUILD_TOP" = environ0 w !! "ANDROID_BUILD_TOP" ->
     commands (trace (fst (run (with_environ w env))))
     = commands (trace (fst (run w)))).
Proof.
  apply (child_variables_not_inherited
           (Sample.world Sample.environ "linux" [])
           {| Argparse.host := None;
              Argparse.package_dir := Some "/src/out/ndk";
              Argparse.toolchain := None |}
           "linux").
  split.
  - vm_compute. discriminate.
  - vm_compute. reflexivity.
  - reflexivity.
  - apply host_linux; [reflexivity | left; reflexivity].
Defined.

(** ** Words that are no options *)

Section Positional.

Variable d : string.

Lemma plain_word_is_argument (v : string) :
  Str.startswith v "-" = false ->
  String.eqb v "--" = false /\
  Argparse.parse_optional (ArgParser_with d) v = inr Argparse.PArg.
Proof.
  intros H. apply not_dash_start in H as [->|(c & v' & -> & Hc)]; [done|].
  split.
  - cbn. by rewrite Hc.
  - unfold Argparse.parse_optional. by rewrite Hc.
Qed.

Lemma classify_plain_words (argv : list string) :
  Forall (fun v => Str.startswith v "-" = false) argv ->
  Argparse.classify (ArgParser_with d) argv
  = inr (map (fun v => (v, Argparse.PArg)) argv).
Proof.
  induction 1 as [|v argv Hv _ IH]; [done|]. cbn [Argparse.classify map].
  destruct (plain_word_is_argument v Hv) as [-> ->]. by rewrite IH.
Qed.

Lemma consume_plain_words (argv extras : list string) ns :
  extras ++ argv <> [] ->
  Argparse.consume (ArgParser_with d) (map (fun v => (v, Argparse.PArg)) argv) ns extras
  = Argparse.Failed (Argparse.UnrecognizedArguments (extras ++ argv)).
Proof.
  revert extras. induction argv as [|v argv IH]; intros extras Hne.
  - rewrite app_nil_r in *. simpl. by destruct extras.
  - cbn [map Argparse.consume]. rewrite IH.
    + by rewrite <- app_assoc.
    + rewrite <- app_assoc. simpl. by destruct extras.
Qed.

Lemma parse_plain_words (argv : list string) :
  argv <> [] ->
  Forall (fun v => Str.startswith v "-" = false) argv ->
  Argparse.parse_args (ArgParser_with d) argv
  = Argparse.Failed (Argparse.UnrecognizedArguments argv).
Proof.
  intros Hne Hplain. unfold Argparse.parse_args.
  rewrite classify_plain_words by done.
  by rewrite consume_plain_words.
Qed.

End Positional.

(** X14. The script takes no positional arguments: with the root set, a
    command line made only of words that do not start with a dash ends the
    run with a usage error naming all of them and status 2, before any change
    of directory and without a child. *)
Theorem no_positional_arguments (w : World) :
  root w <> "" ->
  sys_argv w <> [] ->
  Forall (fun v => Str.startswith v "-" = false) (sys_argv w) ->
  exists p,
    run w =
      ({| cwd := cwd0 w; store := [environ0 w];
          trace := [UsageError p (Argparse.UnrecognizedArguments (sys_argv w))] |},
       inl (SystemExit (inl 2))) /\
    exit_status (snd (run w)) = 2 /\
    spawns (trace (fst (run w))) = [].
Proof.
  intros Hroot Hne Hplain.
  exists (ArgParser_with (default_package_dir w)).
  by rewrite (run_usage w _ Hroot
                (parse_plain_words (default_package_dir w) (sys_argv w) Hne Hplain)).
Qed.

Lemma no_positional_arguments_witness :
  let w := Sample.world Sample.environ "linux" ["x86"; "arm"] in
  exists p,
    run w =
      ({| cwd := cwd0 w; store := [environ0 w];
          trace := [UsageError p (Argparse.UnrecognizedArguments (sys_argv w))] |},
       inl (SystemExit (inl 2))) /\
    exit_status (snd (run w)) = 2 /\
    spawns (trace (fst (run w))) = [].
Proof.
  apply (no_positional_arguments (Sample.world Sample.environ "linux" ["x86"; "arm"])).
  - vm_compute. discriminate.
  - discriminate.
  - repeat constructor.
Defined.
